(** * Inception-ResNet-v2 for Keras: a shallow embedding of
      [inception_resnet_v2_inputs.py]

    The script assembles a Keras layer graph.  Calling a layer on a symbolic
    tensor registers a node in the backend's graph and returns a new symbolic
    tensor that carries its static shape; a call whose shapes do not fit
    raises.  The embedding threads the backend (image data format and the
    graph built so far) and the raised exception through an error-and-state
    monad, and writes the Python functions of the script on top of it.

    Layout: Python values and exceptions, the backend monad, the Keras layers
    the script imports (their shape rules), the functions of the script, the
    numeric side ([preprocess_input] on binary32), and then the
    properties. *)

From Stdlib Require Import ZArith List String Ascii Bool Lia.
From Stdlib Require Import QArith Qabs DecimalString DecimalZ DecimalPos.
From Stdlib Require Import Floats.SpecFloat.
Import ListNotations.

#[local] Open Scope string_scope.
#[local] Open Scope list_scope.
#[local] Open Scope Z_scope.

(** ** Python values and exceptions *)

(** The dynamically typed arguments of [inception_resnet_v2]: [include_top],
    [weights], [pooling] and [input_tensor] receive whatever the caller
    passes. *)
#[local] Set Warnings "-register-all".
Inductive pyval : Type :=
| PyNone
| PyBool (b : bool)
| PyInt (z : Z)
| PyStr (s : string)
| PyTuple (items : list pyval).

(** Python truth value testing. *)
Definition truthy (v : pyval) : bool :=
  match v with
  | PyNone => false
  | PyBool b => b
  | PyInt z => negb (z =? 0)
  | PyStr s => negb (String.eqb s EmptyString)
  | PyTuple items => match items with [] => false | _ :: _ => true end
  end.

(** [v == 'literal'] for a string literal. *)
Definition py_eq_str (v : pyval) (lit : string) : bool :=
  match v with
  | PyStr s => String.eqb s lit
  | _ => false
  end.

(** [str(n)] for an int. *)
Definition str_of_int (n : Z) : string := NilZero.string_of_int (Z.to_int n).

#[local] Notation "s +++ t" := (String.append s t)
  (at level 60, right associativity).

Definition dquote : string := String (ascii_of_nat 34) EmptyString.

Inductive exn : Type :=
| ValueError (msg : string)
| UnboundLocalError (msg : string)
| IndexError (msg : string)
| TypeError (msg : string)
| OSError (msg : string).

Inductive result (A : Type) : Type :=
| Ok (a : A)
| Raise (e : exn).
Arguments Ok {A} a.
Arguments Raise {A} e.

(** ** Tensors, layers and the backend graph *)

(** A static dimension is an int or [None]. *)
Definition dim : Type := option Z.
Definition shape : Type := list dim.

(** A symbolic tensor: the index of the node that produced it and its static
    shape, what [K.int_shape] reads. *)
Record tensor : Type := mkTensor { t_id : nat; t_shape : shape }.

Definition K_int_shape (x : tensor) : shape := t_shape x.

Inductive data_format : Type := channels_last | channels_first.
Inductive padding : Type := valid | same.

(** Keras activation identifiers. *)
Inductive activation : Type := relu | sigmoid | tanh | softmax | linear.

(** A kernel or pool size: an int or a pair. *)
Inductive ksize : Type :=
| KInt (k : Z)
| KPair (kh kw : Z).

Definition normalize_tuple (k : ksize) : Z * Z :=
  match k with
  | KInt k => (k, k)
  | KPair kh kw => (kh, kw)
  end.

(** The layers the script instantiates, with the constructor arguments it
    passes.  [Lambda] is the one lambda of the script,
    [lambda inputs, scale: inputs[0] + inputs[1] * scale], with its
    [arguments={'scale': scale}] and [output_shape]. *)
Inductive layer : Type :=
| InputLayer
| Conv2D (filters : Z) (kernel_size : ksize) (strides : Z) (pad : padding)
         (use_bias : bool) (name : option string)
| BatchNormalization (axis : Z) (scale : bool) (name : option string)
| Activation (fn : activation) (name : option string)
| MaxPooling2D (pool_size : ksize) (strides : Z) (pad : padding)
| AveragePooling2D (pool_size : ksize) (strides : Z) (pad : padding)
| Concatenate (axis : Z) (name : option string)
| Lambda (scale : Q) (output_shape : shape) (name : option string)
| GlobalAveragePooling2D (name : option string)
| GlobalMaxPooling2D
| Dense (units : Z) (fn : activation) (name : option string).

(** A node of the graph: a layer, the tensors it was called on, and the shape
    of the tensor it returned. *)
Record node : Type := mkNode {
  n_layer : layer;
  n_inbound : list tensor;
  n_output : shape
}.

(** The backend: [K.image_data_format()] and the nodes created so far, newest
    first; the node of tensor [i] was created when [i] nodes existed. *)
Record backend : Type := mkBackend {
  image_data_format : data_format;
  graph : list node
}.

(** ** The error-and-state monad of graph construction *)

Definition M (A : Type) : Type := backend -> result (A * backend).

Definition ret {A} (a : A) : M A := fun st => Ok (a, st).

Definition bind {A B} (m : M A) (k : A -> M B) : M B :=
  fun st =>
    match m st with
    | Ok (a, st') => k a st'
    | Raise e => Raise e
    end.

Definition raise {A} (e : exn) : M A := fun _ => Raise e.

Definition lift {A} (r : result A) : M A :=
  fun st => match r with Ok a => Ok (a, st) | Raise e => Raise e end.

Definition K_image_data_format : M data_format :=
  fun st => Ok (image_data_format st, st).

Notation "x <- m ;; k" := (bind m (fun x => k))
  (at level 61, m at next level, right associativity).

(** ** Shape rules of the Keras layers *)

Module Keras.

(** [conv_utils.conv_output_length], dilation 1.  Under [valid] padding a
    window larger than the input is rejected by shape inference. *)
Definition conv_output_length (n : dim) (k : Z) (p : padding) (s : Z)
  : result dim :=
  match n with
  | None => Ok None
  | Some n =>
      match p with
      | same => Ok (Some ((n + s - 1) / s))
      | valid =>
          if n <? k
          then Raise (ValueError "Negative dimension size")
          else Ok (Some ((n - k + 1 + s - 1) / s))
      end
  end.

(** Spatial windowing shared by convolution and pooling; [out_ch] is the
    channel dimension of the result. *)
Definition window_shape (df : data_format) (k : ksize) (s : Z) (p : padding)
           (out_ch : dim -> result dim) (x : shape) : result shape :=
  let '(kh, kw) := normalize_tuple k in
  match df, x with
  | channels_last, [b; h; w; c] =>
      match conv_output_length h kh p s, conv_output_length w kw p s, out_ch c with
      | Ok h', Ok w', Ok c' => Ok [b; h'; w'; c']
      | Raise e, _, _ => Raise e
      | _, Raise e, _ => Raise e
      | _, _, Raise e => Raise e
      end
  | channels_first, [b; c; h; w] =>
      match conv_output_length h kh p s, conv_output_length w kw p s, out_ch c with
      | Ok h', Ok w', Ok c' => Ok [b; c'; h'; w']
      | Raise e, _, _ => Raise e
      | _, Raise e, _ => Raise e
      | _, _, Raise e => Raise e
      end
  | _, _ => Raise (ValueError "expected ndim=4")
  end.

Definition conv_channels (filters : Z) (c : dim) : result dim :=
  match c with
  | Some _ => Ok (Some filters)
  | None =>
      Raise (ValueError "The channel dimension of the inputs should be defined")
  end.

(** Two dimensions of tensors that are concatenated off the axis, or added:
    they agree, or one of them is [None]. *)
Definition merge_dim (a b : dim) : result dim :=
  match a, b with
  | None, _ => Ok b
  | _, None => Ok a
  | Some x, Some y =>
      if x =? y then Ok a else Raise (ValueError "incompatible shapes")
  end.

Definition add_dim (a b : dim) : dim :=
  match a, b with
  | Some x, Some y => Some (x + y)
  | _, _ => None
  end.

(** Joins two shapes for a concatenation along [axis]: the dimension at
    [axis] adds up, every other one has to agree. *)
Fixpoint concat2 (axis : nat) (a b : shape) : result shape :=
  match a, b with
  | [], [] =>
      match axis with
      | O => Raise (ValueError "concatenation axis out of range")
      | S _ => Ok []
      end
  | x :: a', y :: b' =>
      match axis with
      | O =>
          match concat2 (List.length a) a' b' with
          | Ok r => Ok (add_dim x y :: r)
          | Raise e => Raise e
          end
      | S axis' =>
          match merge_dim x y, concat2 axis' a' b' with
          | Ok d, Ok r => Ok (d :: r)
          | Raise e, _ => Raise e
          | _, Raise e => Raise e
          end
      end
  | _, _ => Raise (ValueError "inputs of different rank")
  end.

Fixpoint merge_shape (a b : shape) : result shape :=
  match a, b with
  | [], [] => Ok []
  | x :: a', y :: b' =>
      match merge_dim x y, merge_shape a' b' with
      | Ok d, Ok r => Ok (d :: r)
      | Raise e, _ => Raise e
      | _, Raise e => Raise e
      end
  | _, _ => Raise (ValueError "inputs of different rank")
  end.

Fixpoint concat_all (axis : nat) (acc : shape) (rest : list shape)
  : result shape :=
  match rest with
  | [] => Ok acc
  | s :: rest' =>
      match concat2 axis acc s with
      | Ok acc' => concat_all axis acc' rest'
      | Raise e => Raise e
      end
  end.

Definition defined_at (axis : Z) (x : shape) : bool :=
  (0 <=? axis) &&
  match nth_error x (Z.to_nat axis) with
  | Some (Some _) => true
  | _ => false
  end.

(** The shape of the tensor a layer returns when it is called on tensors of
    the given shapes. *)
Definition compute_output_shape (df : data_format) (l : layer)
           (inputs : list shape) : result shape :=
  match l, inputs with
  | InputLayer, _ => Raise (TypeError "InputLayer is not called")
  | Conv2D filters k s p _ _, [x] =>
      window_shape df k s p (conv_channels filters) x
  | MaxPooling2D k s p, [x] => window_shape df k s p (fun c => Ok c) x
  | AveragePooling2D k s p, [x] => window_shape df k s p (fun c => Ok c) x
  | BatchNormalization axis _ _, [x] =>
      if defined_at axis x then Ok x
      else Raise (ValueError "axis of input tensor should have a defined dimension")
  | Activation _ _, [x] => Ok x
  | Concatenate axis _, x :: rest =>
      if (0 <=? axis) && (axis <? Z.of_nat (List.length x))
      then concat_all (Z.to_nat axis) x rest
      else Raise (ValueError "concatenation axis out of range")
  | Lambda _ _ _, [x; y] => merge_shape x y
  | GlobalAveragePooling2D _, [x] | GlobalMaxPooling2D, [x] =>
      match df, x with
      | channels_last, [b; _; _; c] => Ok [b; c]
      | channels_first, [b; c; _; _] => Ok [b; c]
      | _, _ => Raise (ValueError "expected ndim=4")
      end
  | Dense units _ _, [x] =>
      match rev x with
      | Some _ :: (_ :: _) as batch => Ok (rev (Some units :: batch))
      | None :: _ :: _ =>
          Raise (ValueError "The last dimension of the inputs to Dense should be defined")
      | _ => Raise (ValueError "expected min_ndim=2")
      end
  | _, _ => Raise (ValueError "layer called on a wrong number of inputs")
  end.

(** [layer(inputs)]: infers the output shape, registers the node, returns
    the new tensor. *)
Definition call (l : layer) (inputs : list tensor) : M tensor :=
  fun st =>
    match compute_output_shape (image_data_format st) l (map t_shape inputs) with
    | Ok s =>
        Ok (mkTensor (List.length (graph st)) s,
            mkBackend (image_data_format st) (mkNode l inputs s :: graph st))
    | Raise e => Raise e
    end.

(** [Input(shape=...)]: a fresh input tensor with an unknown batch size. *)
Definition Input (input_shape : shape) : M tensor :=
  fun st =>
    let s := None :: input_shape in
    Ok (mkTensor (List.length (graph st)) s,
        mkBackend (image_data_format st) (mkNode InputLayer [] s :: graph st)).

End Keras.
Import Keras.

(** ** The functions of the script *)

(** [None if name is None else name + suffix] *)
Definition name_suffix (name : option string) (suffix : string) : option string :=
  match name with
  | None => None
  | Some n => Some (n +++ suffix)
  end.

(** Lines 68-80.  Defaults of the source: [strides=1], [padding='same'],
    [activation='relu'], [use_bias=False], [name=None]. *)
Definition conv2d_bn (x : tensor) (filters : Z) (kernel_size : ksize)
           (strides : Z) (pad : padding) (activation : option activation)
           (use_bias : bool) (name : option string) : M tensor :=
  x <- call (Conv2D filters kernel_size strides pad use_bias name) [x];;
  x <- (if negb use_bias then
          df <- K_image_data_format;;
          let bn_axis := match df with channels_last => 3 | channels_first => 1 end in
          let bn_name := name_suffix name "_bn" in
          call (BatchNormalization bn_axis false bn_name) [x]
        else ret x);;
  x <- match activation with
       | Some fn =>
           let ac_name := name_suffix name "_ac" in
           call (Activation fn ac_name) [x]
       | None => ret x
       end;;
  ret x.

(** Lines 83-93. *)
Definition inception_stem (input : tensor) : M tensor :=
  x <- conv2d_bn input 32 (KInt 3) 2 valid (Some relu) false None;;
  x <- conv2d_bn x 32 (KInt 3) 1 valid (Some relu) false None;;
  x <- conv2d_bn x 64 (KInt 3) 1 same (Some relu) false None;;
  x <- call (MaxPooling2D (KInt 3) 2 valid) [x];;
  x <- conv2d_bn x 80 (KInt 1) 1 valid (Some relu) false None;;
  x <- conv2d_bn x 192 (KInt 3) 1 valid (Some relu) false None;;
  x <- call (MaxPooling2D (KInt 3) 2 valid) [x];;
  ret x.

(** Lines 96-114. *)
Definition inception_a (input : tensor) : M tensor :=
  branch_11 <- conv2d_bn input 96 (KInt 1) 1 same (Some relu) false None;;
  branch_12 <- conv2d_bn input 48 (KInt 1) 1 same (Some relu) false None;;
  branch_22 <- conv2d_bn branch_12 64 (KInt 5) 1 same (Some relu) false None;;
  branch_13 <- conv2d_bn input 64 (KInt 1) 1 same (Some relu) false None;;
  branch_23 <- conv2d_bn branch_13 96 (KInt 3) 1 same (Some relu) false None;;
  branch_33 <- conv2d_bn branch_23 96 (KInt 3) 1 same (Some relu) false None;;
  branch_14 <- call (AveragePooling2D (KPair 3 3) 1 same) [input];;
  branch_24 <- conv2d_bn branch_14 64 (KInt 1) 1 same (Some relu) false None;;
  let branches := [branch_11; branch_22; branch_33; branch_24] in
  x <- call (Concatenate 3 (Some "mixed_5b")) branches;;
  ret x.

(** [shape[i]] on a shape tuple. *)
Definition shape_index (s : shape) (i : nat) : M dim :=
  match nth_error s i with
  | Some d => ret d
  | None => raise (IndexError "tuple index out of range")
  end.

Definition unknown_block_type (block_type : string) : exn :=
  ValueError ("Unknown Inception-ResNet block type. "
              +++ "Expects " +++ dquote +++ "block35" +++ dquote +++ ", "
              +++ dquote +++ "block17" +++ dquote +++ " or "
              +++ dquote +++ "block8" +++ dquote +++ ", "
              +++ "but got: " +++ block_type).

(** Lines 119-156: the branches of the block, selected by [block_type]. *)
Definition inception_resnet_branches (input : tensor) (block_type : string)
  : M (list tensor) :=
  if String.eqb block_type "block35" then
    branch_11 <- conv2d_bn input 32 (KInt 1) 1 same (Some relu) false None;;
    branch_12 <- conv2d_bn input 32 (KInt 1) 1 same (Some relu) false None;;
    branch_22 <- conv2d_bn branch_12 32 (KInt 3) 1 same (Some relu) false None;;
    branch_13 <- conv2d_bn input 32 (KInt 1) 1 same (Some relu) false None;;
    branch_23 <- conv2d_bn branch_13 48 (KInt 3) 1 same (Some relu) false None;;
    branch_33 <- conv2d_bn branch_23 64 (KInt 3) 1 same (Some relu) false None;;
    ret [branch_11; branch_22; branch_33]
  else if String.eqb block_type "block17" then
    branch_11 <- conv2d_bn input 192 (KInt 1) 1 same (Some relu) false None;;
    branch_12 <- conv2d_bn input 128 (KInt 1) 1 same (Some relu) false None;;
    branch_22 <- conv2d_bn branch_12 160 (KPair 1 7) 1 same (Some relu) false None;;
    branch_32 <- conv2d_bn branch_22 192 (KPair 7 1) 1 same (Some relu) false None;;
    ret [branch_11; branch_32]
  else if String.eqb block_type "block8" then
    branch_11 <- conv2d_bn input 192 (KInt 1) 1 same (Some relu) false None;;
    branch_12 <- conv2d_bn input 192 (KInt 1) 1 same (Some relu) false None;;
    branch_22 <- conv2d_bn branch_12 224 (KPair 1 3) 1 same (Some relu) false None;;
    branch_32 <- conv2d_bn branch_22 256 (KPair 3 1) 1 same (Some relu) false None;;
    ret [branch_11; branch_32]
  else
    raise (unknown_block_type block_type).

(** Lines 117-172.  The local [x] is bound only inside
    [if activation is not None]; [return x] reads it.  Default of the source:
    [activation='relu']. *)
Definition inception_resnet_block (input : tensor) (scale : Q)
           (block_type : string) (block_idx : Z)
           (activation : option activation) : M tensor :=
  branches <- inception_resnet_branches input block_type;;
  let block_name := block_type +++ "_" +++ str_of_int block_idx in
  mix <- call (Concatenate 3 (Some (block_name +++ "_mixed"))) branches;;
  channels <- shape_index (K_int_shape input) 3;;
  filters <- match channels with
             | Some f => ret f
             | None => raise (TypeError "Conv2D: filters is None")
             end;;
  up <- conv2d_bn mix filters (KPair 1 1) 1 same None true
                  (Some (block_name +++ "_conv"));;
  up <- call (Lambda scale (tl (K_int_shape input)) (Some block_name)) [input; up];;
  x <- match activation with
       | Some fn =>
           x <- call (Activation fn (Some (block_name +++ "_ac"))) [up];;
           ret (Some x)
       | None => ret None
       end;;
  match x with
  | Some x => ret x
  | None =>
      raise (UnboundLocalError "local variable 'x' referenced before assignment")
  end.

(** Lines 174-188. *)
Definition reduction_a (input : tensor) : M tensor :=
  branch_11 <- conv2d_bn input 384 (KInt 3) 2 valid (Some relu) false None;;
  branch_12 <- conv2d_bn input 256 (KInt 1) 1 same (Some relu) false None;;
  branch_22 <- conv2d_bn branch_12 256 (KInt 3) 1 same (Some relu) false None;;
  branch_32 <- conv2d_bn branch_22 384 (KInt 3) 2 valid (Some relu) false None;;
  branch_13 <- call (MaxPooling2D (KPair 3 3) 2 valid) [input];;
  let branches := [branch_11; branch_32; branch_13] in
  x <- call (Concatenate 3 (Some "mixed_6a")) branches;;
  ret x.

(** Lines 191-209. *)
Definition reduction_b (input : tensor) : M tensor :=
  branch_11 <- conv2d_bn input 256 (KInt 1) 1 same (Some relu) false None;;
  branch_21 <- conv2d_bn branch_11 384 (KInt 3) 2 valid (Some relu) false None;;
  branch_12 <- conv2d_bn input 256 (KInt 1) 1 same (Some relu) false None;;
  branch_22 <- conv2d_bn branch_12 288 (KInt 3) 2 valid (Some relu) false None;;
  branch_13 <- conv2d_bn input 256 (KInt 1) 1 same (Some relu) false None;;
  branch_23 <- conv2d_bn branch_13 288 (KInt 3) 1 same (Some relu) false None;;
  branch_33 <- conv2d_bn branch_23 320 (KInt 3) 2 valid (Some relu) false None;;
  branch_14 <- call (MaxPooling2D (KPair 3 3) 2 valid) [input];;
  let branches := [branch_21; branch_22; branch_33; branch_14] in
  x <- call (Concatenate 3 (Some "mixed_7a")) branches;;
  ret x.

(** [range(lo, hi)] and [for i in ...: x = body(i, x)]. *)
Definition range (lo hi : Z) : list Z :=
  map (fun i => lo + Z.of_nat i) (seq 0 (Z.to_nat (hi - lo))).

Fixpoint for_each {A} (l : list Z) (body : Z -> A -> M A) (x : A) : M A :=
  match l with
  | [] => ret x
  | i :: l' => x' <- body i x;; for_each l' body x'
  end.

(** Lines 64-65. *)
Definition WEIGHTS_PATH : string :=
  "/home/mike/keras_dnn_models/inception_resnet_v2_weights_tf_dim_ordering_tf_kernels.h5".
Definition WEIGHTS_PATH_NO_TOP : string :=
  "/home/mike/keras_dnn_models/inception_resnet_v2_weights_tf_dim_ordering_tf_kernels_notop.h5".

(** What a weight file holds, as far as loading looks at it: for every layer
    that has weights, in order, the shapes of its arrays. *)
Definition weight_file : Type := list (list (list Z)).

(** A [Model]: input and output tensors, name, the graph it was cut from and
    the weights loaded into it, if any. *)
Record model : Type := mkModel {
  m_inputs : tensor;
  m_outputs : tensor;
  m_name : string;
  m_graph : list node;
  m_weights : option weight_file
}.

Definition Model (inputs outputs : tensor) (name : string) : M model :=
  fun st => Ok (mkModel inputs outputs name (graph st) None, st).

Section Script.

(** [imagenet_utils._obtain_input_shape(input_shape, default_size, min_size,
    data_format, require_flatten, weights)], imported by the script. *)
Variable _obtain_input_shape :
  option shape -> Z -> Z -> option string -> pyval -> pyval -> result shape.

(** [model.load_weights(filepath)] of the framework, every other argument
    at its default; it reads the file system. *)
Variable load_weights : model -> string -> result model.

(** Lines 222-247: stem, Inception-A, the three stages of residual blocks
    with the two reductions between them, and the final convolution. *)
Definition inception_resnet_v2_features (inputs : tensor) : M tensor :=
  x <- inception_stem inputs;;
  x <- inception_a x;;
  x <- for_each (range 1 11)
         (fun block_idx x =>
            inception_resnet_block x 0.17 "block35" block_idx (Some relu)) x;;
  x <- reduction_a x;;
  x <- for_each (range 1 21)
         (fun block_idx x =>
            inception_resnet_block x 0.1 "block17" block_idx (Some relu)) x;;
  x <- reduction_b x;;
  x <- for_each (range 1 11)
         (fun block_idx x =>
            inception_resnet_block x 0.2 "block8" block_idx (Some relu)) x;;
  x <- conv2d_bn x 1536 (KInt 1) 1 same (Some relu) false (Some "conv_7b");;
  ret x.

(** Lines 249-257. *)
Definition inception_resnet_v2_top (include_top pooling : pyval) (classes : Z)
           (x : tensor) : M tensor :=
  if truthy include_top then
    x <- call (GlobalAveragePooling2D (Some "avg_pool")) [x];;
    x <- call (Dense classes softmax (Some "predictions")) [x];;
    ret x
  else
    if py_eq_str pooling "avg" then
      x <- call (GlobalAveragePooling2D None) [x];;
      ret x
    else if py_eq_str pooling "max" then
      x <- call GlobalMaxPooling2D [x];;
      ret x
    else ret x.

(** Lines 262-269. *)
Definition inception_resnet_v2_weights (include_top weights : pyval)
           (m : model) : M model :=
  if py_eq_str weights "imagenet" then
    let weights_path :=
      if truthy include_top then WEIGHTS_PATH else WEIGHTS_PATH_NO_TOP in
    lift (load_weights m weights_path)
  else ret m.

(** Lines 214-260: the model as it is before weights are loaded. *)
Definition inception_resnet_v2_untrained (include_top weights : pyval)
           (input_shape : option shape) (pooling : pyval) (classes : Z)
  : M model :=
  input_shape <- lift (_obtain_input_shape input_shape 299 139 None
                                           include_top weights);;
  inputs <- Input input_shape;;
  x <- inception_resnet_v2_features inputs;;
  x <- inception_resnet_v2_top include_top pooling classes x;;
  Model inputs x "inception_resnet_v2".

(** Lines 212-271.  Defaults of the source: [include_top=True],
    [weights='imagenet'], [input_tensor=None], [input_shape=None],
    [pooling=None], [classes=1000].  [input_tensor] is not read. *)
Definition inception_resnet_v2 (include_top weights input_tensor : pyval)
           (input_shape : option shape) (pooling : pyval) (classes : Z)
  : M model :=
  m <- inception_resnet_v2_untrained include_top weights input_shape
                                     pooling classes;;
  m <- inception_resnet_v2_weights include_top weights m;;
  ret m.

(** Lines 284-288: the model the script builds when it is run; the tuple is
    the first positional argument. *)
Definition main_model : M model :=
  let input_shape := PyTuple [PyInt 229; PyInt 299; PyInt 3] in
  inception_resnet_v2 input_shape (PyStr "imagenet") PyNone None PyNone 1000.

End Script.

(** ** The two collaborators of [inception_resnet_v2] *)

Module ImagenetUtils.

Definition dim_eqb (a b : dim) : bool :=
  match a, b with
  | Some x, Some y => x =? y
  | None, None => true
  | _, _ => false
  end.

Fixpoint shape_eqb (a b : shape) : bool :=
  match a, b with
  | [], [] => true
  | x :: a', y :: b' => dim_eqb x y && shape_eqb a' b'
  | _, _ => false
  end.

Definition too_small (d : dim) (min_size : Z) : bool :=
  match d with
  | Some n => n <? min_size
  | None => false
  end.

Definition has_none (s : shape) : bool :=
  existsb (fun d => match d with None => true | Some _ => false end) s.

(** Modelled from the spec: [_obtain_input_shape] lives in the repository's
    [imagenet_utils] module, which is not among the sources.  The spec gives
    its contract: the image input is the fixed 299 x 299 x 3 target when no
    shape is passed, and a shape that breaks the minimum-size or
    channel-count constraints is fatal.  The definition follows the helper
    of that name that Keras applications ship: with ImageNet weights and a
    classification head the default shape is the only one accepted;
    otherwise a given shape is validated, and a missing one is the default
    (with a head) or a shape with free spatial dimensions (without). *)
Definition _obtain_input_shape (input_shape : option shape)
           (default_size min_size : Z) (data_format : option string)
           (require_flatten weights : pyval) : result shape :=
  let channels_first_p :=
    match data_format with
    | Some f => String.eqb f "channels_first"
    | None => false
    end in
  let default_shape :=
    match input_shape with
    | Some [d0; d1; d2] =>
        if negb (py_eq_str weights "imagenet") then
          if channels_first_p
          then [d0; Some default_size; Some default_size]
          else [Some default_size; Some default_size; d2]
        else
          if channels_first_p
          then [Some 3; Some default_size; Some default_size]
          else [Some default_size; Some default_size; Some 3]
    | _ =>
        if channels_first_p
        then [Some 3; Some default_size; Some default_size]
        else [Some default_size; Some default_size; Some 3]
    end in
  if py_eq_str weights "imagenet" && truthy require_flatten then
    match input_shape with
    | Some s =>
        if shape_eqb s default_shape then Ok default_shape
        else Raise (ValueError "input_shape should be the default shape")
    | None => Ok default_shape
    end
  else
    let checked : result shape :=
      match input_shape with
      | Some ((_ :: _) as s) =>
          match s with
          | [d0; d1; d2] =>
              let '(ch, h, w) :=
                if channels_first_p then (d0, d1, d2) else (d2, d0, d1) in
              if negb (dim_eqb ch (Some 3)) && py_eq_str weights "imagenet"
              then Raise (ValueError "The input must have 3 channels")
              else if too_small h min_size || too_small w min_size
              then Raise (ValueError "Input size must be at least min_size")
              else Ok s
          | _ => Raise (ValueError "input_shape must be a tuple of three integers")
          end
      | _ =>
          if truthy require_flatten then Ok default_shape
          else if channels_first_p then Ok [Some 3; None; None]
          else Ok [None; None; Some 3]
      end in
    match checked with
    | Ok s =>
        if truthy require_flatten && has_none s
        then Raise (ValueError "If include_top is True, you should specify a static input_shape")
        else Ok s
    | Raise e => Raise e
    end.

End ImagenetUtils.

Module Weights.

(** The file system, as far as weight loading reads it. *)
Definition file_system : Type := string -> option weight_file.

Definition dim_value (d : dim) : Z :=
  match d with Some n => n | None => 0 end.

Definition channel_axis (df : data_format) : nat :=
  match df with channels_last => 3%nat | channels_first => 1%nat end.

(** The arrays a layer owns: kernel and bias of a convolution or a dense
    layer; of a batch normalization its scale, if any, its offset and its
    two moving statistics. *)
Definition layer_weights (df : data_format) (nd : node) : list (list Z) :=
  let input_shape :=
    match n_inbound nd with
    | x :: _ => t_shape x
    | [] => []
    end in
  match n_layer nd with
  | Conv2D filters k _ _ use_bias _ =>
      let '(kh, kw) := normalize_tuple k in
      let c := dim_value (nth (channel_axis df) input_shape None) in
      [kh; kw; c; filters] :: (if use_bias then [[filters]] else [])
  | BatchNormalization axis scale _ =>
      let c := dim_value (nth (Z.to_nat axis) input_shape None) in
      (if scale then [[c]] else []) ++ [[c]; [c]; [c]]
  | Dense units _ _ =>
      [dim_value (last input_shape None); units] :: [[units]]
  | _ => []
  end.

Definition model_weights (df : data_format) (m : model) : weight_file :=
  filter (fun ws => match ws with [] => false | _ :: _ => true end)
         (map (layer_weights df) (rev (m_graph m))).

Definition weight_file_eqb (a b : weight_file) : bool :=
  if list_eq_dec (list_eq_dec (list_eq_dec Z.eq_dec)) a b then true else false.

(** [model.load_weights(filepath)]: the file has to exist and to hold, layer
    by layer, arrays of the shapes the model has; then all of it is
    loaded. *)
Definition load_weights (fs : file_system) (df : data_format)
           (m : model) (filepath : string) : result model :=
  match fs filepath with
  | None => Raise (OSError ("Unable to open file " +++ filepath))
  | Some file =>
      if weight_file_eqb file (model_weights df m)
      then Ok (mkModel (m_inputs m) (m_outputs m) (m_name m) (m_graph m)
                       (Some file))
      else Raise (ValueError "the weight file does not match the model")
  end.

Definition count_params (w : weight_file) : Z :=
  fold_right Z.add 0
    (map (fun ws => fold_right Z.add 0 (map (fold_right Z.mul 1) ws)) w).

End Weights.

(** ** Numeric side: [preprocess_input] on binary32 arrays *)

Module Float32.

Definition prec : Z := 24.
Definition emax : Z := 128.

(** Rounding of a binary floating-point number (of any precision) to
    binary32, to nearest, ties to even: the cast to [float32]. *)
Definition of_float (x : spec_float) : spec_float :=
  match x with
  | S754_finite s m e => binary_normalize prec emax (cond_Zopp s (Zpos m)) e s
  | _ => x
  end.

(** The binary32 value of [m * 2^e]. *)
Definition of_scaled (m e : Z) : spec_float :=
  binary_normalize prec emax m e false.

Definition div : spec_float -> spec_float -> spec_float := SFdiv prec emax.
Definition sub : spec_float -> spec_float -> spec_float := SFsub prec emax.
Definition mul : spec_float -> spec_float -> spec_float := SFmul prec emax.

End Float32.

(** An image as [img_to_array] receives it: height x width x channels pixel
    values, each a binary floating-point number (an 8-bit sample, or any
    entry of a numeric array). *)
Definition image : Type := list (list (list spec_float)).
Definition array3 : Type := list (list (list spec_float)).
Definition array4 : Type := list array3.

Definition map3 (f : spec_float -> spec_float) (x : array3) : array3 :=
  map (map (map f)) x.
Definition map4 (f : spec_float -> spec_float) (x : array4) : array4 :=
  map (map3 f) x.

(** [image.img_to_array]: a [float32] array of the same extent. *)
Definition img_to_array (x : image) : array3 := map3 Float32.of_float x.

(** [np.expand_dims(x, axis=0)] *)
Definition np_expand_dims_0 (x : array3) : array4 := [x].

(** [np.divide], [np.subtract], [np.multiply] of a [float32] array and a
    Python float: elementwise, in binary32. *)
Definition np_divide (x : array4) (c : spec_float) : array4 :=
  map4 (fun v => Float32.div v (Float32.of_float c)) x.
Definition np_subtract (x : array4) (c : spec_float) : array4 :=
  map4 (fun v => Float32.sub v (Float32.of_float c)) x.
Definition np_multiply (x : array4) (c : spec_float) : array4 :=
  map4 (fun v => Float32.mul v (Float32.of_float c)) x.

(** The literals [255.0], [0.5] and [2.0]. *)
Definition lit_255_0 : spec_float := S754_finite false 255 0.
Definition lit_0_5 : spec_float := S754_finite false 1 (-1).
Definition lit_2_0 : spec_float := S754_finite false 2 0.

(** Lines 274-281. *)
Definition preprocess_input (x : image) : array4 :=
  let x := img_to_array x in
  let x := np_expand_dims_0 x in
  let x := np_divide x lit_255_0 in
  let x := np_subtract x lit_0_5 in
  let output := np_multiply x lit_2_0 in
  output.

(** What the spec says a pixel becomes, [(p/255 - 0.5) * 2], in binary32. *)
Definition scale_pixel (p : spec_float) : spec_float :=
  Float32.mul
    (Float32.sub (Float32.div (Float32.of_float p) (Float32.of_scaled 255 0))
                 (Float32.of_scaled 1 (-1)))
    (Float32.of_scaled 2 0).

(** A [h] x [w] x [c] image with every pixel equal to [p]. *)
Definition constant_image (h w c : nat) (p : spec_float) : image :=
  repeat (repeat (repeat p c) w) h.

(** ** The spec's tables, and observers of a built graph *)

(** Section 4.4 of the spec: per variant, the branches of a residual block,
    each a chain of convolutions given by filter count and kernel. *)
Definition spec_branches (block_type : string)
  : option (list (list (Z * ksize))) :=
  if String.eqb block_type "block35" then
    Some [ [(32, KInt 1)];
           [(32, KInt 1); (32, KInt 3)];
           [(32, KInt 1); (48, KInt 3); (64, KInt 3)] ]
  else if String.eqb block_type "block17" then
    Some [ [(192, KInt 1)];
           [(128, KInt 1); (160, KPair 1 7); (192, KPair 7 1)] ]
  else if String.eqb block_type "block8" then
    Some [ [(192, KInt 1)];
           [(192, KInt 1); (224, KPair 1 3); (256, KPair 3 1)] ]
  else None.

(** A chain of stride-1, same-padded convolution units over [x]. *)
Fixpoint conv_chain (x : tensor) (chain : list (Z * ksize)) : M tensor :=
  match chain with
  | [] => ret x
  | (filters, k) :: chain' =>
      y <- conv2d_bn x filters k 1 same (Some relu) false None;;
      conv_chain y chain'
  end.

(** Every branch is a chain over the same block input. *)
Fixpoint build_branches (input : tensor) (branches : list (list (Z * ksize)))
  : M (list tensor) :=
  match branches with
  | [] => ret []
  | chain :: branches' =>
      b <- conv_chain input chain;;
      bs <- build_branches input branches';;
      ret (b :: bs)
  end.

(** The filter count a branch ends with. *)
Definition branch_width (chain : list (Z * ksize)) : Z :=
  fst (last chain (0, KInt 1)).

(** Section 4.6 of the spec: the stages of the network, in order. *)
Inductive stage : Type :=
| Stem
| InceptionA
| Residual (block_type : string) (scale : Q) (block_idx : Z)
| ReductionA
| ReductionB
| FinalConv (filters : Z).

Definition run_stage (s : stage) (x : tensor) : M tensor :=
  match s with
  | Stem => inception_stem x
  | InceptionA => inception_a x
  | Residual block_type scale block_idx =>
      inception_resnet_block x scale block_type block_idx (Some relu)
  | ReductionA => reduction_a x
  | ReductionB => reduction_b x
  | FinalConv filters =>
      conv2d_bn x filters (KInt 1) 1 same (Some relu) false (Some "conv_7b")
  end.

Fixpoint run_stages (l : list stage) (x : tensor) : M tensor :=
  match l with
  | [] => ret x
  | s :: l' => y <- run_stage s x;; run_stages l' y
  end.

(** [n] repetitions of one variant with one scale, numbered from 1. *)
Definition repetitions (n : nat) (block_type : string) (scale : Q) : list stage :=
  map (fun i => Residual block_type scale (Z.of_nat i)) (seq 1 n).

Definition spec_pipeline : list stage :=
  [Stem; InceptionA]
    ++ repetitions 10 "block35" 0.17 ++ [ReductionA]
    ++ repetitions 20 "block17" 0.1 ++ [ReductionB]
    ++ repetitions 10 "block8" 0.2 ++ [FinalConv 1536].

(** Keeps what [f] selects, in order. *)
Fixpoint pick {A B} (f : A -> option B) (l : list A) : list B :=
  match l with
  | [] => []
  | a :: l' =>
      match f a with
      | Some b => b :: pick f l'
      | None => pick f l'
      end
  end.

(** The layers of a graph in the order of their creation. *)
Definition layers_in_order (g : list node) : list layer := map n_layer (rev g).

(** The node that produced a tensor. *)
Definition producer (g : list node) (t : tensor) : option node :=
  nth_error (rev g) (t_id t).

(** A windowed (convolution or pooling) layer: kind, window, stride, padding. *)
Inductive window_kind : Type := WConv | WMaxPool | WAvgPool.

Definition windowing (l : layer) : option (window_kind * (Z * Z) * Z * padding) :=
  match l with
  | Conv2D _ k s p _ _ => Some (WConv, normalize_tuple k, s, p)
  | MaxPooling2D k s p => Some (WMaxPool, normalize_tuple k, s, p)
  | AveragePooling2D k s p => Some (WAvgPool, normalize_tuple k, s, p)
  | _ => None
  end.

(** A layer that leaves the spatial extent alone: not windowed, or windowed
    with stride 1 and same padding. *)
Definition keeps_extent (l : layer) : bool :=
  match windowing l with
  | Some (_, _, s, same) => s =? 1
  | Some (_, _, _, valid) => false
  | None => true
  end.

(** The named layers that mark the stages of the network: the joins
    [mixed_5b], [mixed_6a], [mixed_7a], the residual sum of every block with
    its scale, and the named convolution unit with its filters and kernel. *)
Inductive mark : Type :=
| Join (name : string)
| ScaledSum (name : string) (scale : Q)
| Unit (name : string) (filters : Z) (kernel : Z * Z).

Definition landmark (l : layer) : option mark :=
  match l with
  | Lambda scale _ (Some name) => Some (ScaledSum name scale)
  | Concatenate _ (Some name) =>
      if String.prefix "mixed_" name then Some (Join name) else None
  | Conv2D filters k _ _ false (Some name) =>
      Some (Unit name filters (normalize_tuple k))
  | _ => None
  end.

Definition stage_landmark (s : stage) : list mark :=
  match s with
  | Stem => []
  | InceptionA => [Join "mixed_5b"]
  | Residual block_type scale block_idx =>
      [ScaledSum (block_type +++ "_" +++ str_of_int block_idx) scale]
  | ReductionA => [Join "mixed_6a"]
  | ReductionB => [Join "mixed_7a"]
  | FinalConv filters => [Unit "conv_7b" filters (1, 1)]
  end.


(** The exact value of a finite binary float. *)
Definition SF2Q (x : spec_float) : Q :=
  match x with
  | S754_finite s m e =>
      (inject_Z (cond_Zopp s (Zpos m)) * (2 # 1) ^ e)%Q
  | _ => 0%Q
  end.

(** An 8-bit sample as a float. *)
Definition sample (p : Z) : spec_float :=
  match p with
  | Zpos m => S754_finite false m 0
  | _ => S754_zero false
  end.

(** The input and the backend of the examples below: a 35 x 35 x 320 feature
    map, alone in a channels-last graph. *)
Definition block35_input : tensor :=
  mkTensor 0 [None; Some 35; Some 35; Some 320].
Definition block35_backend : backend :=
  mkBackend channels_last
    [mkNode InputLayer [] [None; Some 35; Some 35; Some 320]].

(** The input of a block17 as a channels-first backend holds it: 1088
    channels on axis 1, 17 x 17. *)
Definition block17_input_channels_first : tensor :=
  mkTensor 0 [None; Some 1088; Some 17; Some 17].
Definition block17_backend_channels_first : backend :=
  mkBackend channels_first
    [mkNode InputLayer [] [None; Some 1088; Some 17; Some 17]].

(** The axis of the channels. *)
Definition channel_axis_Z (df : data_format) : Z :=
  match df with channels_last => 3 | channels_first => 1 end.

(** The spec's formula on an 8-bit sample, over the rationals. *)
Definition exact_pixel (p : Z) : Q := ((inject_Z p / 255 - (1 # 2)) * 2)%Q.

(** The binary32 result for sample [p] lies in [-1, 1] and within [2^-24] of
    the exact value. *)
Definition pixel_close (p : Z) : bool :=
  let r := SF2Q (scale_pixel (sample p)) in
  Qle_bool (-1) r && Qle_bool r 1
  && Qle_bool (Qabs (r - exact_pixel p)) (1 # 16777216).

(** The model on an empty channels-last backend, ImageNet weights not
    requested, 1000 classes. *)
Definition build_untrained (include_top : pyval) (input_shape : option shape)
           (pooling : pyval) : result (model * backend) :=
  inception_resnet_v2 ImagenetUtils._obtain_input_shape
    (fun m _ => Ok m) include_top PyNone PyNone input_shape pooling 1000
    (mkBackend channels_last []).

Definition output_layer (m : model) : option layer :=
  option_map n_layer (producer (m_graph m) (m_outputs m)).

(** The model a construction returned, if it returned. *)
Definition built (r : result (model * backend)) : option model :=
  match r with
  | Ok (m, _) => Some m
  | Raise _ => None
  end.


(** The weights of the default model with its head, as a file would hold
    them. *)
Definition reference_weights : option weight_file :=
  option_map (Weights.model_weights channels_last)
             (built (build_untrained (PyBool true) None PyNone)).

(** A file system that holds just that file, at the full-model path. *)
Definition saved_weights : Weights.file_system :=
  fun filepath =>
    if String.eqb filepath WEIGHTS_PATH then reference_weights else None.

(** The tuple the script passes. *)
Definition main_input_shape : pyval := PyTuple [PyInt 229; PyInt 299; PyInt 3].

(** A loader that finds no file at all. *)
Definition no_files : Weights.file_system := fun _ => None.

(** A loader that only reports the path it was asked for. *)
Definition report_path (m : model) (filepath : string) : result model :=
  Raise (OSError filepath).

(** The nodes in front of [g] in a graph that grew from it. *)
Ltac list_prefix l g :=
  lazymatch l with
  | g => constr:(@nil node)
  | ?a :: ?r => let p := list_prefix r g in constr:(a :: p)
  end.

(** ** Shapes, names and orders the properties speak of *)

(** On channels-last tensors of shape [s] the builder [f] returns a tensor of
    shape [s'], whatever the graph holds, and only adds nodes to it. *)
Definition maps_to (f : tensor -> M tensor) (s s' : shape) : Prop :=
  forall (x : tensor) (g : list node),
    t_shape x = s ->
    exists y new,
      f x (mkBackend channels_last g) = Ok (y, mkBackend channels_last (new ++ g))
      /\ t_shape y = s'.

(** On channels-last tensors of shape [s] the builder [f] raises [e]. *)
Definition rejects (f : tensor -> M tensor) (s : shape) (e : exn) : Prop :=
  forall (x : tensor) (g : list node),
    t_shape x = s -> f x (mkBackend channels_last g) = Raise e.

(** What shape inference says when a valid window does not fit. *)
Definition negative_dimension : exn := ValueError "Negative dimension size".

(** Extent left by a 3-wide valid window moved with stride 2. *)
Definition halved (n : Z) : Z := (n - 1) / 2.

(** Extent of the stem's output on an input of extent [n]. *)
Definition stem_extent (n : Z) : Z := halved (halved (halved n - 2) - 2).

(** Extent of the feature extractor's output: two more reductions. *)
Definition features_extent (n : Z) : Z := halved (halved (stem_extent n)).

(** The name a layer was given, if any. *)
Definition layer_name (l : layer) : option string :=
  match l with
  | InputLayer | MaxPooling2D _ _ _ | AveragePooling2D _ _ _
  | GlobalMaxPooling2D => None
  | Conv2D _ _ _ _ _ name | BatchNormalization _ _ name | Activation _ name
  | Concatenate _ name | Lambda _ _ name | GlobalAveragePooling2D name
  | Dense _ _ name => name
  end.

(** The names given to the layers of some nodes, newest first. *)
Definition names_of (nodes : list node) : list string :=
  pick layer_name (map n_layer nodes).

(** Whenever [m] returns, it has left the data format alone and has put some
    nodes in front of the graph, whose layers were given the names [names]
    (newest first). *)
Definition adds {A} (m : M A) (names : list string) : Prop :=
  forall (st : backend) (a : A) (st' : backend),
    m st = Ok (a, st') ->
    image_data_format st' = image_data_format st
    /\ exists new, graph st' = new ++ graph st /\ names_of new = names.

(** The names [conv2d_bn] gives, newest first. *)
Definition conv2d_bn_names (act : option activation) (use_bias : bool)
           (name : option string) : list string :=
  match name with
  | None => []
  | Some n =>
      (match act with Some _ => [n +++ "_ac"] | None => [] end)
        ++ (if use_bias then [] else [n +++ "_bn"]) ++ [n]
  end.

(** The names a residual block gives, newest first. *)
Definition block_names (block_type : string) (block_idx : Z) : list string :=
  let block_name := block_type +++ "_" +++ str_of_int block_idx in
  [block_name +++ "_ac"; block_name; block_name +++ "_conv";
   block_name +++ "_mixed"].

(** The names the stages of the spec's pipeline give, newest first. *)
Definition stage_names (s : stage) : list string :=
  match s with
  | Stem => []
  | InceptionA => ["mixed_5b"]
  | Residual block_type _ block_idx => block_names block_type block_idx
  | ReductionA => ["mixed_6a"]
  | ReductionB => ["mixed_7a"]
  | FinalConv _ => ["conv_7b_ac"; "conv_7b_bn"; "conv_7b"]
  end.

(** All the names of the feature extractor, newest first. *)
Definition feature_names : list string :=
  flat_map stage_names (rev spec_pipeline).

Fixpoint distinct (l : list string) : bool :=
  match l with
  | [] => true
  | x :: l' => negb (existsb (String.eqb x) l') && distinct l'
  end.

(** Whether a character occurs in a string. *)
Fixpoint has_char (c : ascii) (s : string) : bool :=
  match s with
  | EmptyString => false
  | String a s' => Ascii.eqb a c || has_char c s'
  end.

(** A suffix that is empty or opens with an underscore. *)
Definition opens_with_underscore (s : string) : Prop :=
  match s with
  | EmptyString => True
  | String a _ => a = "_"%char
  end.





(** A loader that finds every file and leaves the model as it is. *)
Definition keep_model (m : model) (filepath : string) : result model := Ok m.

(** Whether a run returned. *)
Definition returns {A} (r : result A) : bool :=
  match r with Ok _ => true | Raise _ => false end.

(** The names the head gives, newest first. *)
Definition top_names (include_top : pyval) : list string :=
  if truthy include_top then ["predictions"; "avg_pool"] else [].

(** * Properties *)

(** ** Shape lemmas *)

Lemma conv_output_length_same_1 (n : dim) (k : Z) :
  conv_output_length n k same 1 = Ok n.
Proof.
  destruct n as [n|]; unfold conv_output_length; [|reflexivity].
  rewrite Z.div_1_r, Z.add_simpl_r. reflexivity.
Qed.

Lemma conv_shape_defined (df : data_format) filters k s p x s0 :
  window_shape df k s p (conv_channels filters) x = Ok s0 ->
  defined_at (channel_axis_Z df) s0 = true.
Proof.
  unfold window_shape. destruct (normalize_tuple k) as [kh kw].
  destruct df; destruct x as [|b [|d1 [|d2 [|d3 [|? ?]]]]]; try discriminate.
  - destruct (conv_output_length d1 kh p s), (conv_output_length d2 kw p s), d3;
      cbn; try discriminate; intros E; injection E as <-; reflexivity.
  - destruct (conv_output_length d2 kh p s), (conv_output_length d3 kw p s), d1;
      cbn; try discriminate; intros E; injection E as <-; reflexivity.
Qed.

(** What [conv2d_bn] adds to the graph, and what it returns. *)
Lemma conv2d_bn_nodes (x : tensor) (filters : Z) (kernel_size : ksize)
        (strides : Z) (pad : padding) (act : option activation)
        (use_bias : bool) (name : option string) (st : backend) :
  conv2d_bn x filters kernel_size strides pad act use_bias name st =
  match compute_output_shape (image_data_format st)
          (Conv2D filters kernel_size strides pad use_bias name) [t_shape x] with
  | Raise e => Raise e
  | Ok s =>
      let n := List.length (graph st) in
      let conv := mkNode (Conv2D filters kernel_size strides pad use_bias name) [x] s in
      let bn :=
        if use_bias then []
        else [mkNode (BatchNormalization
                        (match image_data_format st with
                         | channels_last => 3 | channels_first => 1 end)
                        false (name_suffix name "_bn"))
                     [mkTensor n s] s] in
      let ac :=
        match act with
        | None => []
        | Some fn =>
            [mkNode (Activation fn (name_suffix name "_ac"))
                    [mkTensor (List.length bn + n) s] s]
        end in
      Ok (mkTensor (List.length ac + (List.length bn + n)) s,
          mkBackend (image_data_format st) (ac ++ bn ++ conv :: graph st))
  end.
Proof.
  destruct st as [df g].
  unfold conv2d_bn, bind, call, ret, K_image_data_format. cbn [image_data_format graph map].
  destruct (compute_output_shape df _ [t_shape x]) as [s|e] eqn:E; [|reflexivity].
  cbn [compute_output_shape] in E. apply conv_shape_defined in E.
  destruct use_bias;
    cbn [negb image_data_format graph map compute_output_shape t_shape].
  - destruct act; reflexivity.
  - unfold channel_axis_Z in E. rewrite E. destruct act; reflexivity.
Qed.

(** C7: for every input tensor, filter count, kernel size, stride and
    padding, [conv2d_bn] calls the convolution; if that call raises, so does
    [conv2d_bn]; otherwise it adds a batch normalization over the channel
    axis of the data format, with scale disabled, exactly when [use_bias] is
    false, then the given activation exactly when [activation] is not [None],
    each on the tensor of the layer before it, and returns the last tensor,
    which has the shape of the convolution's output. *)
Theorem conv2d_bn_contract (x : tensor) (filters : Z) (kernel_size : ksize)
        (strides : Z) (pad : padding) (act : option activation)
        (use_bias : bool) (name : option string) (st : backend) :
  let df := image_data_format st in
  let n := List.length (graph st) in
  let convolution := Conv2D filters kernel_size strides pad use_bias name in
  conv2d_bn x filters kernel_size strides pad act use_bias name st =
  match compute_output_shape df convolution [t_shape x] with
  | Raise e => Raise e
  | Ok s =>
      let bn :=
        if use_bias then []
        else [mkNode (BatchNormalization (channel_axis_Z df) false
                                         (name_suffix name "_bn"))
                     [mkTensor n s] s] in
      let ac :=
        match act with
        | None => []
        | Some fn =>
            [mkNode (Activation fn (name_suffix name "_ac"))
                    [mkTensor (List.length bn + n) s] s]
        end in
      Ok (mkTensor (List.length ac + (List.length bn + n)) s,
          mkBackend df (ac ++ bn ++ mkNode convolution [x] s :: graph st))
  end.
Proof. intros df n convolution. apply conv2d_bn_nodes. Qed.

Lemma merge_dim_refl (a : dim) : merge_dim a a = Ok a.
Proof. destruct a as [z|]; cbn; [rewrite Z.eqb_refl|]; reflexivity. Qed.

Lemma merge_shape_refl (s : shape) : merge_shape s s = Ok s.
Proof.
  induction s as [|d s IH]; cbn; [reflexivity|].
  rewrite merge_dim_refl, IH. reflexivity.
Qed.

Lemma concat2_channels (b h w : dim) (x y : Z) :
  concat2 3 [b; h; w; Some x] [b; h; w; Some y] = Ok [b; h; w; Some (x + y)].
Proof. cbn. rewrite !merge_dim_refl. reflexivity. Qed.

Lemma concat_all_channels (b h w : dim) (widths : list Z) (x : Z) :
  concat_all 3 [b; h; w; Some x] (map (fun f => [b; h; w; Some f]) widths)
  = Ok [b; h; w; Some (fold_left Z.add widths x)].
Proof.
  revert x. induction widths as [|y widths IH]; intros x; [reflexivity|].
  cbn [map concat_all fold_left]. rewrite concat2_channels. apply IH.
Qed.

Lemma conv2d_bn_same_shape (x : tensor) (filters : Z) (k : ksize)
      (use_bias : bool) (name : option string) (b h w : dim) (c : Z) :
  t_shape x = [b; h; w; Some c] ->
  compute_output_shape channels_last
    (Conv2D filters k 1 same use_bias name) [t_shape x]
  = Ok [b; h; w; Some filters].
Proof.
  intros Hx. cbn [compute_output_shape]. rewrite Hx. unfold window_shape.
  destruct (normalize_tuple k) as [kh kw]. rewrite !conv_output_length_same_1.
  reflexivity.
Qed.

(** A stride-1, same-padded convolution unit on a channels-last map keeps
    batch and extent and sets the channel count. *)
Lemma conv2d_bn_same (x : tensor) (filters : Z) (k : ksize)
      (act : option activation) (use_bias : bool) (name : option string)
      (g : list node) (b h w : dim) (c : Z) :
  t_shape x = [b; h; w; Some c] ->
  exists y new,
    conv2d_bn x filters k 1 same act use_bias name (mkBackend channels_last g)
    = Ok (y, mkBackend channels_last (new ++ g))
    /\ t_shape y = [b; h; w; Some filters]
    /\ forallb keeps_extent (map n_layer new) = true.
Proof.
  intros Hx. rewrite conv2d_bn_nodes. cbn [image_data_format graph].
  rewrite (conv2d_bn_same_shape x filters k use_bias name b h w c Hx).
  cbv zeta.
  match goal with
  | |- context [Ok (?y, mkBackend _ (?ac ++ ?bn ++ ?conv :: g))] =>
      exists y, (ac ++ bn ++ [conv])
  end.
  split; [rewrite <- !app_assoc; reflexivity|].
  split; [reflexivity|].
  destruct use_bias, act; reflexivity.
Qed.

(** The projection of a residual block: one biased convolution, nothing
    after it. *)
Lemma conv2d_bn_projection (x : tensor) (filters : Z) (name : option string)
      (g : list node) (b h w : dim) (c : Z) :
  t_shape x = [b; h; w; Some c] ->
  conv2d_bn x filters (KPair 1 1) 1 same None true name
            (mkBackend channels_last g)
  = Ok (mkTensor (List.length g) [b; h; w; Some filters],
        mkBackend channels_last
          (mkNode (Conv2D filters (KPair 1 1) 1 same true name) [x]
                  [b; h; w; Some filters] :: g)).
Proof.
  intros Hx. rewrite conv2d_bn_nodes. cbn [image_data_format graph].
  rewrite (conv2d_bn_same_shape x filters _ true name b h w c Hx).
  reflexivity.
Qed.

Lemma forallb_keeps_app (a b : list node) :
  forallb keeps_extent (map n_layer a) = true ->
  forallb keeps_extent (map n_layer b) = true ->
  forallb keeps_extent (map n_layer (a ++ b)) = true.
Proof. intros Ha Hb. rewrite map_app, forallb_app, Ha, Hb. reflexivity. Qed.

(** A chain of such units keeps batch and extent; its channel count is the
    filter count of its last unit. *)
Lemma conv_chain_same (chain : list (Z * ksize)) :
  forall (x : tensor) (g : list node) (b h w : dim) (c : Z),
    t_shape x = [b; h; w; Some c] ->
    exists y new,
      conv_chain x chain (mkBackend channels_last g)
      = Ok (y, mkBackend channels_last (new ++ g))
      /\ t_shape y = [b; h; w; Some (fst (last chain (c, KInt 1)))]
      /\ forallb keeps_extent (map n_layer new) = true.
Proof.
  induction chain as [|[f k] chain IH]; intros x g b h w c Hx.
  - exists x, []. repeat split; assumption.
  - destruct (conv2d_bn_same x f k (Some relu) false None g b h w c Hx)
      as (y & new1 & E1 & Hy & K1).
    destruct (IH y (new1 ++ g) b h w f Hy) as (z & new2 & E2 & Hz & K2).
    exists z, (new2 ++ new1). split; [|split].
    + cbn [conv_chain]. unfold bind. rewrite E1, E2, app_assoc. reflexivity.
    + rewrite Hz. destruct chain as [|p chain]; [reflexivity|].
      do 3 f_equal. cbn [last]. clear. revert p.
      induction chain as [|q chain IHc]; intros p; [reflexivity|apply IHc].
    + apply forallb_keeps_app; assumption.
Qed.

Lemma build_branches_same (branches : list (list (Z * ksize))) :
  forall (input : tensor) (g : list node) (b h w : dim) (c : Z),
    t_shape input = [b; h; w; Some c] ->
    exists ys new,
      build_branches input branches (mkBackend channels_last g)
      = Ok (ys, mkBackend channels_last (new ++ g))
      /\ map t_shape ys
         = map (fun chain => [b; h; w; Some (fst (last chain (c, KInt 1)))])
               branches
      /\ forallb keeps_extent (map n_layer new) = true.
Proof.
  induction branches as [|chain branches IH]; intros input g b h w c Hx.
  - exists [], []. repeat split.
  - destruct (conv_chain_same chain input g b h w c Hx)
      as (y & new1 & E1 & Hy & K1).
    destruct (IH input (new1 ++ g) b h w c Hx) as (ys & new2 & E2 & Hys & K2).
    exists (y :: ys), (new2 ++ new1). split; [|split].
    + cbn [build_branches]. unfold bind, ret.
      rewrite E1, E2, app_assoc. reflexivity.
    + cbn [map]. rewrite Hy, Hys. reflexivity.
    + apply forallb_keeps_app; assumption.
Qed.

(** The branches the code builds are those of the spec's table. *)
Lemma branches_refine (input : tensor) (block_type : string)
      (table : list (list (Z * ksize))) (st : backend) :
  spec_branches block_type = Some table ->
  inception_resnet_branches input block_type st
  = build_branches input table st.
Proof.
  unfold spec_branches, inception_resnet_branches.
  destruct (String.eqb block_type "block35");
    [|destruct (String.eqb block_type "block17");
      [|destruct (String.eqb block_type "block8")]];
    intros E; [injection E as <-..|discriminate];
    cbn [build_branches conv_chain]; unfold bind, ret;
    repeat (destruct (conv2d_bn _ _ _ _ _ _ _ _ _) as [[? ?]|];
            try reflexivity).
Qed.



(** A residual block of a known variant on a channels-last map: the joined
    branches, the projection back to the input's channels, the scaled sum and
    the activation. *)
Lemma residual_block_same (block_type : string) (chain : list (Z * ksize))
      (rest : list (list (Z * ksize))) (input : tensor) (scale : Q)
      (block_idx : Z) (fn : activation) (g : list node)
      (b h w : dim) (c : Z) :
  spec_branches block_type = Some (chain :: rest) ->
  t_shape input = [b; h; w; Some c] ->
  let widths := map (fun ch => fst (last ch (c, KInt 1))) (chain :: rest) in
  let block_name := block_type +++ "_" +++ str_of_int block_idx in
  let joined := [b; h; w; Some (fold_left Z.add (tl widths) (hd 0 widths))] in
  exists out new ys mix up,
    inception_resnet_block input scale block_type block_idx (Some fn)
                           (mkBackend channels_last g)
    = Ok (out, mkBackend channels_last (new ++ g))
    /\ t_shape out = [b; h; w; Some c]
    /\ forallb keeps_extent (map n_layer new) = true
    /\ map t_shape ys = map (fun f => [b; h; w; Some f]) widths
    /\ t_shape mix = joined
    /\ t_shape up = [b; h; w; Some c]
    /\ In (mkNode (Concatenate 3 (Some (block_name +++ "_mixed"))) ys joined) new
    /\ In (mkNode (Conv2D c (KPair 1 1) 1 same true (Some (block_name +++ "_conv")))
                  [mix] [b; h; w; Some c]) new
    /\ In (mkNode (Lambda scale [h; w; Some c] (Some block_name)) [input; up]
                  [b; h; w; Some c]) new
    /\ hd_error new
       = Some (mkNode (Activation fn (Some (block_name +++ "_ac")))
                      [mkTensor (t_id out - 1) [b; h; w; Some c]]
                      [b; h; w; Some c]).
Proof.
  intros Htable Hx widths block_name joined.
  destruct (build_branches_same (chain :: rest) input g b h w c Hx)
    as (ys & new1 & E1 & Hys & K1).
  rewrite <- (map_map (fun ch => fst (last ch (c, KInt 1)))
                      (fun f => [b; h; w; Some f])) in Hys.
  fold widths in Hys.
  pose (mix := mkTensor (List.length (new1 ++ g)) joined).
  pose (mixed := mkNode (Concatenate 3 (Some (block_name +++ "_mixed"))) ys joined).
  assert (Emix : call (Concatenate 3 (Some (block_name +++ "_mixed"))) ys
                      (mkBackend channels_last (new1 ++ g))
                 = Ok (mix, mkBackend channels_last (mixed :: new1 ++ g))).
  { unfold call. cbn [image_data_format graph]. rewrite Hys.
    subst widths. cbn [map compute_output_shape].
    change ((0 <=? 3) && (3 <? Z.of_nat (List.length [b; h; w; Some (fst (last chain (c, KInt 1)))])))
      with true.
    cbv iota. rewrite concat_all_channels. reflexivity. }
  pose (up := mkTensor (List.length (mixed :: new1 ++ g)) [b; h; w; Some c]).
  pose (proj := mkNode (Conv2D c (KPair 1 1) 1 same true
                               (Some (block_name +++ "_conv")))
                       [mix] [b; h; w; Some c]).
  assert (E2 := conv2d_bn_projection mix c (Some (block_name +++ "_conv"))
                  (mixed :: new1 ++ g) b h w _ eq_refl).
  fold up proj in E2.
  pose (lam := mkNode (Lambda scale [h; w; Some c] (Some block_name))
                      [input; up] [b; h; w; Some c]).
  pose (sum := mkTensor (List.length (proj :: mixed :: new1 ++ g))
                        [b; h; w; Some c]).
  pose (ac := mkNode (Activation fn (Some (block_name +++ "_ac"))) [sum]
                     [b; h; w; Some c]).
  exists (mkTensor (S (t_id sum)) [b; h; w; Some c]),
    (ac :: lam :: proj :: mixed :: new1), ys, mix, up.
  split; [|split; [|split; [|split; [|split; [|split; [|split; [|split; [|split]]]]]]]].
  - unfold inception_resnet_block, bind.
    rewrite (branches_refine input block_type _ _ Htable), E1.
    fold block_name. rewrite Emix.
    unfold shape_index, K_int_shape. rewrite Hx. cbn [nth_error ret tl].
    rewrite E2. unfold call. cbn [image_data_format graph map compute_output_shape].
    rewrite Hx. cbn [t_shape up]. rewrite merge_shape_refl. reflexivity.
  - reflexivity.
  - cbn [map forallb n_layer ac lam proj mixed]. exact K1.
  - exact Hys.
  - reflexivity.
  - reflexivity.
  - right. right. right. left. reflexivity.
  - right. right. left. reflexivity.
  - right. left. reflexivity.
  - cbn [hd_error t_id]. rewrite Nat.sub_1_r. reflexivity.
Qed.

(** ** Monad lemmas *)

Lemma bind_never_returns {A B} (m : M A) (k : A -> M B) (st : backend) :
  (forall a st', exists e, k a st' = Raise e) ->
  exists e, bind m k st = Raise e.
Proof.
  intros Hk. unfold bind. destruct (m st) as [[a st']|e].
  - apply Hk.
  - exists e. reflexivity.
Qed.

(** C1 (code): with [activation=None] the residual block never returns a
    tensor.  For every input, scale, block type, index and backend the call
    raises; on a well-formed 35 x 35 x 320 input of a [block35] the graph of
    the block is built and the call then fails at [return x], because the
    local [x] was bound only under [if activation is not None]. *)
Theorem residual_block_without_activation_raises :
  (forall (input : tensor) (scale : Q) (block_type : string) (block_idx : Z)
          (st : backend),
      exists e,
        inception_resnet_block input scale block_type block_idx None st
        = Raise e)
  /\ inception_resnet_block block35_input 0.17 "block35" 1 None block35_backend
     = Raise (UnboundLocalError
                "local variable 'x' referenced before assignment")
  /\ exists out st',
      inception_resnet_block block35_input 0.17 "block35" 1 (Some relu)
                             block35_backend
      = Ok (out, st').
Proof.
  split; [|split].
  - intros input scale block_type block_idx st.
    unfold inception_resnet_block.
    do 6 (apply bind_never_returns; intros ? ?).
    eexists. reflexivity.
  - vm_compute. reflexivity.
  - eexists. eexists. vm_compute. reflexivity.
Qed.



(** On a channels-last feature map, each of the three variants builds
    only stride-1, same-padded layers, so every branch has the batch and
    spatial extent of the block input; the join concatenates the branches on
    axis 3, and its channel count is the sum of the widths the branches end
    with: 32+32+64 = 128, 192+192 = 384, 192+256 = 448. *)
Lemma residual_variants_concat_channels_last (input : tensor) (scale : Q) (block_idx : Z)
        (fn : activation) (st : backend) (b h w : dim) (c : Z)
        (block_type : string) (widths : list Z) (total : Z) :
  image_data_format st = channels_last ->
  t_shape input = [b; h; w; Some c] ->
  In (block_type, widths, total)
     [ ("block35", [32; 32; 64], 128);
       ("block17", [192; 192], 384);
       ("block8", [192; 256], 448) ] ->
  exists out st' new branches,
    inception_resnet_block input scale block_type block_idx (Some fn) st
    = Ok (out, st')
    /\ graph st' = new ++ graph st
    /\ forallb keeps_extent (map n_layer new) = true
    /\ map t_shape branches = map (fun f => [b; h; w; Some f]) widths
    /\ In (mkNode (Concatenate 3
                     (Some ((block_type +++ "_" +++ str_of_int block_idx)
                              +++ "_mixed")))
                  branches [b; h; w; Some total]) new
    /\ total = fold_right Z.add 0 widths.
Proof.
  intros Hdf Hx Hin. destruct st as [df g]. cbn in Hdf. subst df.
  cbn [graph].
  assert (Hcases :
            exists chain rest,
              spec_branches block_type = Some (chain :: rest)
              /\ map (fun ch => fst (last ch (c, KInt 1))) (chain :: rest) = widths
              /\ fold_left Z.add (tl widths) (hd 0 widths) = total
              /\ total = fold_right Z.add 0 widths).
  { cbn [In] in Hin.
    destruct Hin as [E|[E|[E|[]]]]; injection E as <- <- <-;
      eexists; eexists; repeat split. }
  destruct Hcases as (chain & rest & Htable & Hwidths & Htotal & Hsum).
  destruct (residual_block_same block_type chain rest input scale block_idx fn
              g b h w c Htable Hx)
    as (out & new & ys & mix & up & E & _ & K & Hys & _ & _ & Hmixed & _).
  rewrite Hwidths in Hys, Hmixed. rewrite Htotal in Hmixed.
  exists out, (mkBackend channels_last (new ++ g)), new, ys.
  repeat split; assumption.
Qed.


Lemma bind_ext {A B} (m : M A) (k1 k2 : A -> M B) (st : backend) :
  (forall a st', k1 a st' = k2 a st') -> bind m k1 st = bind m k2 st.
Proof.
  intros H. unfold bind. destruct (m st) as [[a st']|e]; [apply H|reflexivity].
Qed.

Lemma bind_congr {A B} (m1 m2 : M A) (k1 k2 : A -> M B) (st : backend) :
  m1 st = m2 st -> (forall a st', k1 a st' = k2 a st') ->
  bind m1 k1 st = bind m2 k2 st.
Proof.
  intros Hm Hk. unfold bind. rewrite Hm.
  destruct (m2 st) as [[a st']|e]; [apply Hk|reflexivity].
Qed.

Lemma bind_ret_r {A} (m : M A) (st : backend) : bind m ret st = m st.
Proof. unfold bind, ret. destruct (m st) as [[a st']|e]; reflexivity. Qed.

Lemma run_stages_app (l1 l2 : list stage) :
  forall (x : tensor) (st : backend),
    run_stages (l1 ++ l2) x st = bind (run_stages l1 x) (run_stages l2) st.
Proof.
  induction l1 as [|s l1 IH]; intros x st; [reflexivity|].
  cbn [app run_stages]. unfold bind.
  destruct (run_stage s x st) as [[y st']|e]; [apply IH|reflexivity].
Qed.

Lemma for_each_blocks (block_type : string) (scale : Q) (l : list Z) :
  forall (x : tensor) (st : backend),
    for_each l (fun block_idx x =>
                  inception_resnet_block x scale block_type block_idx (Some relu))
             x st
    = run_stages (map (Residual block_type scale) l) x st.
Proof.
  induction l as [|i l IH]; intros x st; [reflexivity|].
  cbn [for_each map run_stages run_stage]. apply bind_ext. exact IH.
Qed.

Lemma range_repetitions (n : nat) (block_type : string) (scale : Q) :
  map (Residual block_type scale) (range 1 (Z.of_nat (S n)))
  = repetitions n block_type scale.
Proof.
  unfold range, repetitions. rewrite map_map.
  replace (Z.to_nat (Z.of_nat (S n) - 1)) with n by lia.
  rewrite <- seq_shift, map_map. apply map_ext. intros i. f_equal. lia.
Qed.

(** C4: on a channels-last 299 x 299 x 3 input the stem runs its seven
    windowed layers in the order of the spec (3x3 convolution with stride 2,
    valid; 3x3 valid; 3x3 same; 3x3 max-pool with stride 2; 1x1 valid; 3x3
    valid; 3x3 max-pool with stride 2) and returns a 35 x 35 feature map
    (with 192 channels). *)
Theorem stem_output_35 (input : tensor) (st : backend) (b : dim) :
  image_data_format st = channels_last ->
  t_shape input = [b; Some 299; Some 299; Some 3] ->
  exists out st' new,
    inception_stem input st = Ok (out, st')
    /\ graph st' = new ++ graph st
    /\ pick windowing (layers_in_order new)
       = [ (WConv, (3, 3), 2, valid);
           (WConv, (3, 3), 1, valid);
           (WConv, (3, 3), 1, same);
           (WMaxPool, (3, 3), 2, valid);
           (WConv, (1, 1), 1, valid);
           (WConv, (3, 3), 1, valid);
           (WMaxPool, (3, 3), 2, valid) ]
    /\ t_shape out = [b; Some 35; Some 35; Some 192].
Proof.
  intros Hdf Hx. destruct st as [df g], input as [i s].
  cbn in Hdf, Hx. subst df s. cbn [graph].
  set (r := inception_stem _ _). vm_compute in r. subst r.
  match goal with
  | |- exists out st' new, Ok (?o, mkBackend ?d ?l) = _ /\ _ =>
      let p := list_prefix l g in
      exists o, (mkBackend d l), p
  end.
  repeat split.
Qed.

Lemma stem_output_35_witness :
  exists out st' new,
    inception_stem (mkTensor 0 [None; Some 299; Some 299; Some 3])
                   (mkBackend channels_last
                      [mkNode InputLayer [] [None; Some 299; Some 299; Some 3]])
    = Ok (out, st')
    /\ graph st'
       = new ++ [mkNode InputLayer [] [None; Some 299; Some 299; Some 3]]
    /\ pick windowing (layers_in_order new)
       = [ (WConv, (3, 3), 2, valid);
           (WConv, (3, 3), 1, valid);
           (WConv, (3, 3), 1, same);
           (WMaxPool, (3, 3), 2, valid);
           (WConv, (1, 1), 1, valid);
           (WConv, (3, 3), 1, valid);
           (WMaxPool, (3, 3), 2, valid) ]
    /\ t_shape out = [None; Some 35; Some 35; Some 192].
Proof.
  apply (stem_output_35 (mkTensor 0 [None; Some 299; Some 299; Some 3])
           (mkBackend channels_last
              [mkNode InputLayer [] [None; Some 299; Some 299; Some 3]])
           None); reflexivity.
Defined.

(** C3: the feature extractor of [inception_resnet_v2] runs the pipeline of
    the spec, stage by stage and in its order: stem, Inception-A, block35
    ten times with scale 0.17, Reduction-A, block17 twenty times with scale
    0.1, Reduction-B, block8 ten times with scale 0.2, and a final 1x1
    convolution unit with 1536 filters.  The scales are constants of the
    pipeline; in the graph of the default model the residual sums carry
    them, in this order, between the named joins. *)
Theorem features_follow_pipeline :
  (forall (inputs : tensor) (st : backend),
      inception_resnet_v2_features inputs st
      = run_stages spec_pipeline inputs st)
  /\ option_map (fun m => pick landmark (layers_in_order (m_graph m)))
                (built (build_untrained (PyBool true) None PyNone))
     = Some (flat_map stage_landmark spec_pipeline).
Proof.
  split.
  - intros inputs st. unfold inception_resnet_v2_features, spec_pipeline.
    change (range 1 11) with (range 1 (Z.of_nat 11)).
    change (range 1 21) with (range 1 (Z.of_nat 21)).
    cbn [app run_stages run_stage].
    apply bind_ext; intros x1 st1. apply bind_ext; intros x2 st2.
    rewrite run_stages_app, <- range_repetitions.
    apply bind_congr; [apply for_each_blocks|intros x3 st3].
    cbn [app run_stages run_stage].
    apply bind_ext; intros x4 st4.
    rewrite run_stages_app, <- range_repetitions.
    apply bind_congr; [apply for_each_blocks|intros x5 st5].
    cbn [app run_stages run_stage].
    apply bind_ext; intros x6 st6.
    rewrite run_stages_app, <- range_repetitions.
    apply bind_congr; [apply for_each_blocks|intros x7 st7].
    cbn [app run_stages run_stage]. reflexivity.
  - vm_compute. reflexivity.
Qed.

(** ** [preprocess_input] *)

Lemma map3_map3 (f g : spec_float -> spec_float) (x : array3) :
  map3 g (map3 f x) = map3 (fun v => g (f v)) x.
Proof.
  unfold map3. rewrite map_map. apply map_ext; intros row.
  rewrite map_map. apply map_ext; intros px. apply map_map.
Qed.

Lemma map3_constant (f : spec_float -> spec_float) (h w c : nat)
      (p : spec_float) :
  map3 f (constant_image h w c p) = constant_image h w c (f p).
Proof. unfold map3, constant_image. rewrite !map_repeat. reflexivity. Qed.

Lemma preprocess_input_pointwise (img : image) :
  preprocess_input img = [map3 scale_pixel img].
Proof.
  unfold preprocess_input, np_multiply, np_subtract, np_divide,
    np_expand_dims_0, img_to_array, map4.
  cbn [map]. rewrite !map3_map3. reflexivity.
Qed.

Lemma pixels_close : forallb pixel_close (map Z.of_nat (seq 0 256)) = true.
Proof. vm_compute. reflexivity. Qed.

Lemma scale_pixel_255 :
  scale_pixel (S754_finite false 255 0) = S754_finite false 8388608 (-23).
Proof. vm_compute. reflexivity. Qed.

Lemma scale_pixel_0 :
  scale_pixel (S754_zero false) = S754_finite true 8388608 (-23).
Proof. vm_compute. reflexivity. Qed.

Lemma scale_pixel_127_5 :
  scale_pixel (S754_finite false 255 (-1)) = S754_zero false.
Proof. vm_compute. reflexivity. Qed.

Lemma pixel_close_sound (p : Z) :
  0 <= p <= 255 -> pixel_close p = true.
Proof.
  intros Hp. pose proof pixels_close as H. rewrite forallb_forall in H.
  apply H. rewrite in_map_iff. exists (Z.to_nat p).
  split; [lia | apply in_seq; lia].
Qed.

(** C6: [preprocess_input] is a function of its argument alone; it returns a
    batch of one array of the image's extent in which every pixel [p] has
    become [(p / 255 - 0.5) * 2], computed in binary32.  A 299 x 299 x 3 image
    of 255s becomes all 1.0, one of 0s all -1.0, one of 127.5s all 0.0; and
    for every 8-bit sample the result lies in [-1, 1], within 2^-24 of the
    exact value of the formula. *)
Theorem preprocess_input_scales :
  (forall img : image, preprocess_input img = [map3 scale_pixel img])
  /\ preprocess_input (constant_image 299 299 3 (S754_finite false 255 0))
     = [constant_image 299 299 3 (S754_finite false 8388608 (-23))]
  /\ preprocess_input (constant_image 299 299 3 (S754_zero false))
     = [constant_image 299 299 3 (S754_finite true 8388608 (-23))]
  /\ preprocess_input (constant_image 299 299 3 (S754_finite false 255 (-1)))
     = [constant_image 299 299 3 (S754_zero false)]
  /\ (SF2Q (S754_finite false 8388608 (-23)) == 1)%Q
  /\ (SF2Q (S754_finite true 8388608 (-23)) == -1)%Q
  /\ (SF2Q (S754_finite false 255 (-1)) == 127.5)%Q
  /\ (forall p : Z,
        0 <= p <= 255 ->
        (-1 <= SF2Q (scale_pixel (sample p)) <= 1
         /\ Qabs (SF2Q (scale_pixel (sample p)) - exact_pixel p)
            <= 1 # 16777216)%Q).
Proof.
  split; [exact preprocess_input_pointwise|].
  split; [rewrite preprocess_input_pointwise, map3_constant, scale_pixel_255;
          reflexivity|].
  split; [rewrite preprocess_input_pointwise, map3_constant, scale_pixel_0;
          reflexivity|].
  split; [rewrite preprocess_input_pointwise, map3_constant, scale_pixel_127_5;
          reflexivity|].
  split; [vm_compute; reflexivity|].
  split; [vm_compute; reflexivity|].
  split; [vm_compute; reflexivity|].
  intros p Hp. apply pixel_close_sound in Hp. unfold pixel_close in Hp.
  rewrite !andb_true_iff in Hp. destruct Hp as [[H1 H2] H3].
  apply Qle_bool_iff in H1, H2, H3. repeat split; assumption.
Qed.

Lemma preprocess_input_scales_witness :
  (-1 <= SF2Q (scale_pixel (sample 200)) <= 1
   /\ Qabs (SF2Q (scale_pixel (sample 200)) - exact_pixel 200)
      <= 1 # 16777216)%Q.
Proof.
  apply (proj2 (proj2 (proj2 (proj2 (proj2 (proj2 (proj2
           preprocess_input_scales))))))).
  lia.
Defined.

(** ** The head of the model *)

Lemma top_on_feature_map (include_top pooling : pyval) (classes : Z)
      (x : tensor) (g : list node) (b h w : dim) (c : Z) :
  t_shape x = [b; h; w; Some c] ->
  inception_resnet_v2_top include_top pooling classes x
                          (mkBackend channels_last g)
  = if truthy include_top then
      let pooled := mkTensor (List.length g) [b; Some c] in
      Ok (mkTensor (S (List.length g)) [b; Some classes],
          mkBackend channels_last
            (mkNode (Dense classes softmax (Some "predictions")) [pooled]
                    [b; Some classes]
             :: mkNode (GlobalAveragePooling2D (Some "avg_pool")) [x]
                       [b; Some c]
             :: g))
    else if py_eq_str pooling "avg" then
      Ok (mkTensor (List.length g) [b; Some c],
          mkBackend channels_last
            (mkNode (GlobalAveragePooling2D None) [x] [b; Some c] :: g))
    else if py_eq_str pooling "max" then
      Ok (mkTensor (List.length g) [b; Some c],
          mkBackend channels_last
            (mkNode GlobalMaxPooling2D [x] [b; Some c] :: g))
    else Ok (x, mkBackend channels_last g).
Proof.
  intros Hx. unfold inception_resnet_v2_top.
  destruct (truthy include_top);
    [|destruct (py_eq_str pooling "avg");
      [|destruct (py_eq_str pooling "max")]];
    unfold bind, call, ret;
    cbn [image_data_format graph map compute_output_shape t_shape];
    rewrite ?Hx; reflexivity.
Qed.


(** What softmax gives each of 1000 equal logits is the binary32 quotient
    1/1000.  A thousand of them add up to 16777060 * 2^-24 in binary32, and
    to 1 + 51 * 2^-30 exactly: the values the framework computes are
    normalised up to rounding only. *)
Lemma binary32_thousandths_do_not_sum_to_1 :
  let one := Float32.of_scaled 1 0 in
  let p := Float32.div one (Float32.of_scaled 1000 0) in
  fold_left (SFadd Float32.prec Float32.emax) (repeat p 1000) (S754_zero false)
  = Float32.of_scaled 16777060 (-24)
  /\ Float32.of_scaled 16777060 (-24) <> one
  /\ Qred (SF2Q p * 1000) = (1073741875 # 1073741824)%Q.
Proof.
  cbv zeta. split; [vm_compute; reflexivity|].
  split; [vm_compute; discriminate|vm_compute; reflexivity].
Qed.



(** ** Weight loading *)

Lemma inception_resnet_v2_loads helper load
      (include_top weights input_tensor : pyval) (input_shape : option shape)
      (pooling : pyval) (classes : Z) (st : backend) :
  inception_resnet_v2 helper load include_top weights input_tensor input_shape
                      pooling classes st
  = match inception_resnet_v2_untrained helper include_top weights input_shape pooling
                          classes st with
    | Raise e => Raise e
    | Ok (m, st') =>
        if py_eq_str weights "imagenet" then
          match load m (if truthy include_top then WEIGHTS_PATH
                        else WEIGHTS_PATH_NO_TOP) with
          | Ok m' => Ok (m', st')
          | Raise e => Raise e
          end
        else Ok (m, st')
    end.
Proof.
  unfold inception_resnet_v2, inception_resnet_v2_weights,
    bind, lift, ret.
  destruct (inception_resnet_v2_untrained _ _ _ _ _ _ st) as [[m st4]|e];
    [|reflexivity].
  destruct (py_eq_str weights "imagenet"); [|reflexivity].
  destruct (load m _) as [m'|e]; reflexivity.
Qed.

(** C9: [inception_resnet_v2] asks the framework to load weights exactly when
    [weights == 'imagenet'], once, after the model is built, from the
    full-model path when [include_top] is true and from the no-top path
    otherwise; what the loader raises is what the call raises, and what it
    returns is the model returned.  With the loader that reads whole files: a
    missing file and a file that does not fit the model are both fatal, and a
    fitting file is loaded as a whole. *)
Theorem weights_loading helper load (fs : Weights.file_system)
        (df : data_format)
        (include_top weights input_tensor : pyval) (input_shape : option shape)
        (pooling : pyval) (classes : Z) (st : backend) :
  let path := if truthy include_top then WEIGHTS_PATH else WEIGHTS_PATH_NO_TOP in
  let untrained :=
    inception_resnet_v2_untrained helper include_top weights input_shape
                                  pooling classes st in
  let run load :=
    inception_resnet_v2 helper load include_top weights input_tensor
                        input_shape pooling classes st in
  WEIGHTS_PATH <> WEIGHTS_PATH_NO_TOP
  /\ (py_eq_str weights "imagenet" = false -> run load = untrained)
  /\ (py_eq_str weights "imagenet" = true ->
      run load = match untrained with
                 | Raise e => Raise e
                 | Ok (m, st') =>
                     match load m path with
                     | Ok m' => Ok (m', st')
                     | Raise e => Raise e
                     end
                 end)
  /\ (py_eq_str weights "imagenet" = true -> fs path = None ->
      built (run (Weights.load_weights fs df)) = None
      /\ run (Weights.load_weights fs df)
         = match untrained with
           | Raise e => Raise e
           | Ok _ => Raise (OSError ("Unable to open file " +++ path))
           end)
  /\ (forall file,
        py_eq_str weights "imagenet" = true -> fs path = Some file ->
        run (Weights.load_weights fs df)
        = match untrained with
          | Raise e => Raise e
          | Ok (m, st') =>
              if Weights.weight_file_eqb file (Weights.model_weights df m)
              then Ok (mkModel (m_inputs m) (m_outputs m) (m_name m)
                               (m_graph m) (Some file), st')
              else Raise (ValueError "the weight file does not match the model")
          end).
Proof.
  intros path untrained run.
  assert (Hrun : forall l, run l
                 = match untrained with
                   | Raise e => Raise e
                   | Ok (m, st') =>
                       if py_eq_str weights "imagenet" then
                         match l m path with
                         | Ok m' => Ok (m', st')
                         | Raise e => Raise e
                         end
                       else Ok (m, st')
                   end).
  { intros l. apply inception_resnet_v2_loads. }
  split; [intro H; discriminate H|].
  split; [intros Hw; rewrite Hrun, Hw; destruct untrained as [[m st']|e];
          reflexivity|].
  split; [intros Hw; rewrite Hrun, Hw; reflexivity|].
  split.
  - intros Hw Hfs. rewrite Hrun, Hw. unfold Weights.load_weights. rewrite Hfs.
    destruct untrained as [[m st']|e]; split; reflexivity.
  - intros file Hw Hfs. rewrite Hrun, Hw. unfold Weights.load_weights.
    rewrite Hfs. destruct untrained as [[m st']|e]; [|reflexivity].
    destruct (Weights.weight_file_eqb file _); reflexivity.
Qed.

Lemma weights_loading_witness :
  built (inception_resnet_v2 ImagenetUtils._obtain_input_shape
           (Weights.load_weights no_files channels_last)
           (PyBool true) (PyStr "imagenet") PyNone None PyNone 1000
           (mkBackend channels_last []))
  = None.
Proof.
  apply (weights_loading ImagenetUtils._obtain_input_shape
           (Weights.load_weights no_files channels_last) no_files
           channels_last (PyBool true) (PyStr "imagenet") PyNone None PyNone
           1000 (mkBackend channels_last []));
    reflexivity.
Defined.

Lemma untrained_truthiness helper (include_top include_top' weights : pyval)
      (input_shape : option shape) (pooling : pyval) (classes : Z)
      (st : backend) :
  helper input_shape 299 139 None include_top weights
  = helper input_shape 299 139 None include_top' weights ->
  truthy include_top = truthy include_top' ->
  inception_resnet_v2_untrained helper include_top weights input_shape
                                pooling classes st
  = inception_resnet_v2_untrained helper include_top' weights input_shape
                                  pooling classes st.
Proof.
  intros Hh Ht. unfold inception_resnet_v2_untrained, inception_resnet_v2_top.
  rewrite Hh, Ht. reflexivity.
Qed.

(** C10: run as a script, the file calls [inception_resnet_v2] with the tuple
    (229, 299, 3) in the place of [include_top].  The tuple is truthy, so the
    call is the call with [include_top=True] and every default: the input
    shape comes from [input_shape=None] and the default size, (299, 299, 3)
    and not the tuple; the classification head is built; and the weights are
    asked for at the full-model path. *)
Theorem main_passes_shape_as_include_top
        (load : model -> string -> result model) (st : backend) :
  let helper := ImagenetUtils._obtain_input_shape in
  main_model helper load st
  = inception_resnet_v2 helper load main_input_shape (PyStr "imagenet")
                        PyNone None PyNone 1000 st
  /\ truthy main_input_shape = true
  /\ helper None 299 139 None main_input_shape (PyStr "imagenet")
     = Ok [Some 299; Some 299; Some 3]
  /\ main_model helper load st
     = inception_resnet_v2 helper load (PyBool true) (PyStr "imagenet")
                           PyNone None PyNone 1000 st
  /\ main_model helper load st
     = match inception_resnet_v2_untrained helper (PyBool true)
               (PyStr "imagenet") None PyNone 1000 st with
       | Raise e => Raise e
       | Ok (m, st') =>
           match load m WEIGHTS_PATH with
           | Ok m' => Ok (m', st')
           | Raise e => Raise e
           end
       end
  /\ main_model helper report_path (mkBackend channels_last [])
     = Raise (OSError WEIGHTS_PATH)
  /\ option_map (fun m => (t_shape (m_inputs m), t_shape (m_outputs m),
                           output_layer m))
                (built (main_model helper (fun m _ => Ok m)
                                   (mkBackend channels_last [])))
     = Some ([None; Some 299; Some 299; Some 3], [None; Some 1000],
             Some (Dense 1000 softmax (Some "predictions"))).
Proof.
  intros helper.
  assert (E : main_model helper load st
              = inception_resnet_v2 helper load (PyBool true) (PyStr "imagenet")
                                    PyNone None PyNone 1000 st).
  { unfold main_model. rewrite !inception_resnet_v2_loads.
    fold main_input_shape.
    rewrite (untrained_truthiness helper main_input_shape (PyBool true))
      by reflexivity.
    reflexivity. }
  split; [reflexivity|]. split; [reflexivity|]. split; [reflexivity|].
  split; [exact E|].
  split; [rewrite E, inception_resnet_v2_loads; reflexivity|].
  split; vm_compute; reflexivity.
Qed.

(** ** The model against its published size *)

(** The default model has the 55,873,736 parameters of Inception-ResNet-v2,
    and 54,336,736 without its head. *)
Lemma default_model_parameters :
  option_map Weights.count_params reference_weights = Some 55873736
  /\ option_map (fun m => Weights.count_params
                            (Weights.model_weights channels_last m))
                (built (build_untrained (PyBool false) None PyNone))
     = Some 54336736.
Proof. split; vm_compute; reflexivity. Qed.

(** With the weight file of the full model in place, the default call loads
    it whole; the same file does not fit the model without the head, and
    where no file is the call fails. *)
Lemma imagenet_weights_load :
  let run include_top fs :=
    inception_resnet_v2 ImagenetUtils._obtain_input_shape
      (Weights.load_weights fs channels_last) include_top (PyStr "imagenet")
      PyNone None PyNone 1000 (mkBackend channels_last []) in
  option_map m_weights (built (run (PyBool true) saved_weights))
  = Some reference_weights
  /\ run (PyBool false) (fun _ => reference_weights)
     = Raise (ValueError "the weight file does not match the model")
  /\ run (PyBool false) saved_weights
     = Raise (OSError ("Unable to open file " +++ WEIGHTS_PATH_NO_TOP)).
Proof. repeat split; vm_compute; reflexivity. Qed.

(** * The builders on any input *)

Lemma returns_inv {A} (r : result A) :
  returns r = true -> exists a, r = Ok a.
Proof. destruct r as [a|e]; [exists a; reflexivity|discriminate]. Qed.

Lemma maps_to_bind (f g : tensor -> M tensor) (s1 s2 s3 : shape) :
  maps_to f s1 s2 -> maps_to g s2 s3 ->
  maps_to (fun x => y <- f x;; g y) s1 s3.
Proof.
  intros Hf Hg x gr Hx.
  destruct (Hf x gr Hx) as (y & new1 & E1 & Hy).
  destruct (Hg y (new1 ++ gr) Hy) as (z & new2 & E2 & Hz).
  exists z, (new2 ++ new1). unfold bind. rewrite E1, E2, app_assoc.
  split; [reflexivity|assumption].
Qed.

Lemma maps_to_ret (s : shape) : maps_to (fun x => ret x) s s.
Proof. intros x g Hx. exists x, []. split; [reflexivity|assumption]. Qed.

Lemma rejects_first (f g : tensor -> M tensor) (s : shape) (e : exn) :
  rejects f s e -> rejects (fun x => y <- f x;; g y) s e.
Proof. intros Hf x gr Hx. unfold bind. rewrite (Hf x gr Hx). reflexivity. Qed.

Lemma rejects_later (f g : tensor -> M tensor) (s1 s2 : shape) (e : exn) :
  maps_to f s1 s2 -> rejects g s2 e ->
  rejects (fun x => y <- f x;; g y) s1 e.
Proof.
  intros Hf Hg x gr Hx.
  destruct (Hf x gr Hx) as (y & new1 & E1 & Hy).
  unfold bind. rewrite E1. apply Hg. assumption.
Qed.

Lemma conv_output_length_valid (n k s : Z) :
  k <= n ->
  conv_output_length (Some n) k valid s = Ok (Some ((n - k + 1 + s - 1) / s)).
Proof.
  intros H. unfold conv_output_length.
  destruct (Z.ltb_spec n k); [lia|reflexivity].
Qed.

Lemma conv_output_length_small (n k s : Z) :
  n < k -> conv_output_length (Some n) k valid s = Raise negative_dimension.
Proof.
  intros H. unfold conv_output_length.
  destruct (Z.ltb_spec n k); [reflexivity|lia].
Qed.

Lemma valid_3_2 (n : Z) : (n - 3 + 1 + 2 - 1) / 2 = halved n.
Proof. unfold halved. f_equal. lia. Qed.

Lemma valid_k_1 (n k : Z) : (n - k + 1 + 1 - 1) / 1 = n - k + 1.
Proof. rewrite Z.div_1_r. lia. Qed.

(** A valid window that fits, on a channels-last map of known extent. *)
Lemma window_valid_fits (k s : Z) (out_ch : dim -> result dim)
      (b c c' : dim) (h w : Z) :
  k <= h -> k <= w -> out_ch c = Ok c' ->
  window_shape channels_last (KInt k) s valid out_ch [b; Some h; Some w; c]
  = Ok [b; Some ((h - k + 1 + s - 1) / s); Some ((w - k + 1 + s - 1) / s); c'].
Proof.
  intros Hh Hw Hc. unfold window_shape. cbn [normalize_tuple].
  rewrite !conv_output_length_valid, Hc by assumption. reflexivity.
Qed.

Lemma window_valid_small (k s : Z) (out_ch : dim -> result dim)
      (b c : dim) (h w : Z) :
  h < k \/ w < k ->
  window_shape channels_last (KInt k) s valid out_ch [b; Some h; Some w; c]
  = Raise negative_dimension.
Proof.
  intros H. unfold window_shape. cbn [normalize_tuple].
  destruct (Z.lt_ge_cases h k) as [Hh|Hh].
  - rewrite (conv_output_length_small h) by assumption. reflexivity.
  - destruct H as [H|H]; [lia|].
    rewrite (conv_output_length_valid h), (conv_output_length_small w)
      by assumption.
    reflexivity.
Qed.

(** A valid convolution unit that fits. *)
Lemma conv2d_bn_valid (filters k s : Z) (act : option activation)
      (use_bias : bool) (name : option string) (b : dim) (h w c : Z) :
  k <= h -> k <= w ->
  maps_to (fun x => conv2d_bn x filters (KInt k) s valid act use_bias name)
          [b; Some h; Some w; Some c]
          [b; Some ((h - k + 1 + s - 1) / s); Some ((w - k + 1 + s - 1) / s);
           Some filters].
Proof.
  intros Hh Hw x g Hx. rewrite conv2d_bn_nodes. cbn [image_data_format graph].
  cbn [compute_output_shape]. rewrite Hx.
  rewrite (window_valid_fits k s _ b (Some c) (Some filters) h w Hh Hw eq_refl).
  cbv zeta.
  match goal with
  | |- context [Ok (?y, mkBackend _ (?ac ++ ?bn ++ ?conv :: g))] =>
      exists y, (ac ++ bn ++ [conv])
  end.
  split; [rewrite <- !app_assoc; reflexivity|reflexivity].
Qed.

(** A valid convolution unit whose window does not fit. *)
Lemma conv2d_bn_small (filters k s : Z) (act : option activation)
      (use_bias : bool) (name : option string) (b : dim) (h w c : Z) :
  h < k \/ w < k ->
  rejects (fun x => conv2d_bn x filters (KInt k) s valid act use_bias name)
          [b; Some h; Some w; Some c] negative_dimension.
Proof.
  intros H x g Hx. rewrite conv2d_bn_nodes. cbn [image_data_format graph].
  cbn [compute_output_shape]. rewrite Hx.
  rewrite (window_valid_small k s _ b (Some c) h w H). reflexivity.
Qed.

Lemma conv2d_bn_keeps (filters : Z) (k : ksize) (act : option activation)
      (use_bias : bool) (name : option string) (b h w : dim) (c : Z) :
  maps_to (fun x => conv2d_bn x filters k 1 same act use_bias name)
          [b; h; w; Some c] [b; h; w; Some filters].
Proof.
  intros x g Hx.
  destruct (conv2d_bn_same x filters k act use_bias name g b h w c Hx)
    as (y & new & E & Hy & _).
  exists y, new. split; assumption.
Qed.

Lemma max_pool_valid (k s : Z) (b c : dim) (h w : Z) :
  k <= h -> k <= w ->
  maps_to (fun x => call (MaxPooling2D (KInt k) s valid) [x])
          [b; Some h; Some w; c]
          [b; Some ((h - k + 1 + s - 1) / s); Some ((w - k + 1 + s - 1) / s); c].
Proof.
  intros Hh Hw x g Hx. unfold call.
  cbn [image_data_format graph map compute_output_shape]. rewrite Hx.
  rewrite (window_valid_fits k s (fun c => Ok c) b c c h w Hh Hw eq_refl).
  eexists. eexists (cons _ nil). split; reflexivity.
Qed.

Lemma max_pool_small (k s : Z) (b c : dim) (h w : Z) :
  h < k \/ w < k ->
  rejects (fun x => call (MaxPooling2D (KInt k) s valid) [x])
          [b; Some h; Some w; c] negative_dimension.
Proof.
  intros H x g Hx. unfold call.
  cbn [image_data_format graph map compute_output_shape]. rewrite Hx.
  rewrite (window_valid_small k s (fun c => Ok c) b c h w H). reflexivity.
Qed.

Lemma rejects_through (f g : tensor -> M tensor) (s1 s2 : shape) (e : exn)
      (k h w : Z) :
  (k <= h -> k <= w -> maps_to f s1 s2) ->
  (h < k \/ w < k -> rejects f s1 e) ->
  (k <= h -> k <= w -> rejects g s2 e) ->
  rejects (fun x => y <- f x;; g y) s1 e.
Proof.
  intros Hfit Hsmall Hrest.
  destruct (Z.lt_ge_cases h k) as [Hh|Hh];
    [apply rejects_first, Hsmall; left; assumption|].
  destruct (Z.lt_ge_cases w k) as [Hw|Hw];
    [apply rejects_first, Hsmall; right; assumption|].
  eapply rejects_later; [apply Hfit|apply Hrest]; assumption.
Qed.

Ltac zdiv :=
  unfold features_extent, stem_extent, halved in *;
  Z.to_euclidean_division_equations; lia.

Ltac tidy_extent :=
  rewrite ?valid_3_2, ?valid_k_1;
  repeat match goal with
         | |- context [?n - 3 + 1] => replace (n - 3 + 1) with (n - 2) by lia
         | |- context [?n - 1 + 1] => replace (n - 1 + 1) with n by lia
         end.

(** The stem on any input it fits. *)
Lemma stem_maps (b : dim) (h w c : Z) :
  27 <= h -> 27 <= w ->
  maps_to inception_stem [b; Some h; Some w; Some c]
          [b; Some (stem_extent h); Some (stem_extent w); Some 192].
Proof.
  intros Hh Hw. unfold inception_stem.
  eapply maps_to_bind; [apply conv2d_bn_valid; lia|]. tidy_extent.
  eapply maps_to_bind; [apply conv2d_bn_valid; zdiv|]. tidy_extent.
  eapply maps_to_bind; [apply conv2d_bn_keeps|].
  eapply maps_to_bind; [apply max_pool_valid; zdiv|]. tidy_extent.
  eapply maps_to_bind; [apply conv2d_bn_valid; zdiv|]. tidy_extent.
  eapply maps_to_bind; [apply conv2d_bn_valid; zdiv|]. tidy_extent.
  eapply maps_to_bind; [apply max_pool_valid; zdiv|]. tidy_extent.
  apply maps_to_ret.
Qed.

Lemma stem_rejects (b : dim) (h w c : Z) :
  h < 27 \/ w < 27 ->
  rejects inception_stem [b; Some h; Some w; Some c] negative_dimension.
Proof.
  intros H. unfold inception_stem.
  eapply (rejects_through _ _ _ _ _ 3 h w);
    [apply conv2d_bn_valid|apply conv2d_bn_small|intros ? ?]. tidy_extent.
  eapply (rejects_through _ _ _ _ _ 3 (halved h) (halved w));
    [apply conv2d_bn_valid|apply conv2d_bn_small|intros ? ?]. tidy_extent.
  eapply rejects_later; [apply conv2d_bn_keeps|].
  eapply (rejects_through _ _ _ _ _ 3 (halved h - 2) (halved w - 2));
    [apply max_pool_valid|apply max_pool_small|intros ? ?]. tidy_extent.
  eapply (rejects_through _ _ _ _ _ 1);
    [apply conv2d_bn_valid|apply conv2d_bn_small|intros ? ?]. tidy_extent.
  eapply (rejects_through _ _ _ _ _ 3);
    [apply conv2d_bn_valid|apply conv2d_bn_small|intros ? ?]. tidy_extent.
  eapply (rejects_through _ _ _ _ _ 3);
    [apply max_pool_valid|apply max_pool_small|intros ? ?].
  exfalso. zdiv.
Qed.

(** Concatenation on the channel axis of channels-last maps of one extent. *)
Lemma call_concat_channels (name : option string) (ys : list tensor)
      (g : list node) (b h w : dim) (f0 : Z) (fs : list Z) :
  map t_shape ys = map (fun f => [b; h; w; Some f]) (f0 :: fs) ->
  call (Concatenate 3 name) ys (mkBackend channels_last g)
  = Ok (mkTensor (List.length g) [b; h; w; Some (fold_left Z.add fs f0)],
        mkBackend channels_last
          (mkNode (Concatenate 3 name) ys
                  [b; h; w; Some (fold_left Z.add fs f0)] :: g)).
Proof.
  intros Hys. unfold call. cbn [image_data_format graph]. rewrite Hys.
  cbn [map compute_output_shape].
  change ((0 <=? 3) && (3 <? Z.of_nat (List.length [b; h; w; Some f0])))
    with true.
  cbv iota. rewrite concat_all_channels. reflexivity.
Qed.

Ltac run_same :=
  match goal with
  | H : t_shape ?x = _
    |- context [conv2d_bn ?x ?f ?k 1 same ?a ?u ?n (mkBackend channels_last ?g)] =>
      let y := fresh "y" in
      let new := fresh "new" in
      let E := fresh "E" in
      let Hy := fresh "Hy" in
      destruct (conv2d_bn_same x f k a u n g _ _ _ _ H) as (y & new & E & Hy & _);
      rewrite E; clear E; cbv beta iota
  end.

Ltac run_valid :=
  match goal with
  | H : t_shape ?x = [?b; Some ?h; Some ?w; Some ?c]
    |- context [conv2d_bn ?x ?f (KInt ?k) ?s valid ?a ?u ?n
                          (mkBackend channels_last ?g)] =>
      let y := fresh "y" in
      let new := fresh "new" in
      let E := fresh "E" in
      let Hy := fresh "Hy" in
      let Hh := fresh "Hh" in
      let Hw := fresh "Hw" in
      assert (Hh : k <= h) by zdiv;
      assert (Hw : k <= w) by zdiv;
      destruct (conv2d_bn_valid f k s a u n b h w c Hh Hw x g H)
        as (y & new & E & Hy);
      cbv beta in E; rewrite E; clear E Hh Hw; cbv beta iota;
      rewrite ?valid_3_2 in Hy
  end.

Ltac shapes :=
  cbn [map]; cbv beta;
  repeat match goal with
         | H : t_shape ?t = _ |- context [t_shape ?t] => rewrite H
         end;
  reflexivity.

Ltac as_prefix g :=
  repeat match goal with
         | |- context [?a :: g] => change (a :: g) with ([a] ++ g)
         end;
  repeat rewrite app_comm_cons; repeat rewrite app_assoc.

(** Inception-A keeps batch and extent and returns 96+64+96+64 = 320
    channels. *)
Lemma inception_a_maps (b h w : dim) (c : Z) :
  maps_to inception_a [b; h; w; Some c] [b; h; w; Some 320].
Proof.
  intros input g Hx. unfold inception_a, bind.
  do 6 run_same.
  unfold call at 1. cbn [image_data_format graph map compute_output_shape].
  rewrite Hx. unfold window_shape. cbn [normalize_tuple].
  rewrite !conv_output_length_same_1. cbv beta iota.
  match goal with
  | |- context [conv2d_bn ?t 64 _ _ _ _ _ _ _] =>
      assert (Hpool : t_shape t = [b; h; w; Some c]) by reflexivity;
      set (pooled := t) in *
  end.
  run_same.
  rewrite (call_concat_channels _ _ _ b h w 96 [64; 96; 64])
    by shapes.
  cbn [ret fold_left].
  eexists. eexists. split; [as_prefix g; reflexivity|reflexivity].
Qed.

(** The 3x3 max-pooling with stride 2 of the two reductions. *)
Lemma call_max_pool_3_2 (x : tensor) (g : list node) (b c : dim) (h w : Z) :
  t_shape x = [b; Some h; Some w; c] -> 3 <= h -> 3 <= w ->
  call (MaxPooling2D (KPair 3 3) 2 valid) [x] (mkBackend channels_last g)
  = Ok (mkTensor (List.length g) [b; Some (halved h); Some (halved w); c],
        mkBackend channels_last
          (mkNode (MaxPooling2D (KPair 3 3) 2 valid) [x]
                  [b; Some (halved h); Some (halved w); c] :: g)).
Proof.
  intros Hx Hh Hw. unfold call.
  cbn [image_data_format graph map compute_output_shape]. rewrite Hx.
  unfold window_shape. cbn [normalize_tuple].
  rewrite !conv_output_length_valid, !valid_3_2 by assumption. reflexivity.
Qed.

(** Reduction-A on an input it fits: the extent is halved and 384+384
    channels are added to those of the input. *)
Lemma reduction_a_maps (b : dim) (h w c : Z) :
  3 <= h -> 3 <= w ->
  maps_to reduction_a [b; Some h; Some w; Some c]
          [b; Some (halved h); Some (halved w); Some (768 + c)].
Proof.
  intros Hh Hw input g Hx. unfold reduction_a, bind.
  run_valid. do 2 run_same. run_valid.
  rewrite (call_max_pool_3_2 input _ b (Some c) h w Hx Hh Hw).
  rewrite (call_concat_channels _ _ _ b (Some (halved h)) (Some (halved w))
             384 [384; c]) by shapes.
  cbn [ret fold_left].
  eexists. eexists. split; [as_prefix g; reflexivity|].
  cbn [t_shape]. do 5 f_equal.
Qed.

Lemma reduction_a_rejects (b : dim) (h w c : Z) :
  h < 3 \/ w < 3 ->
  rejects reduction_a [b; Some h; Some w; Some c] negative_dimension.
Proof.
  intros H input g Hx. unfold reduction_a, bind.
  rewrite (conv2d_bn_small 384 3 2 (Some relu) false None b h w c H input g Hx).
  reflexivity.
Qed.

(** Reduction-B on an input it fits: the extent is halved and 384+288+320
    channels are added to those of the input. *)
Lemma reduction_b_maps (b : dim) (h w c : Z) :
  3 <= h -> 3 <= w ->
  maps_to reduction_b [b; Some h; Some w; Some c]
          [b; Some (halved h); Some (halved w); Some (992 + c)].
Proof.
  intros Hh Hw input g Hx. unfold reduction_b, bind.
  run_same. run_valid. run_same. run_valid. do 2 run_same. run_valid.
  rewrite (call_max_pool_3_2 input _ b (Some c) h w Hx Hh Hw).
  rewrite (call_concat_channels _ _ _ b (Some (halved h)) (Some (halved w))
             384 [288; 320; c]) by shapes.
  cbn [ret fold_left].
  eexists. eexists. split; [as_prefix g; reflexivity|].
  cbn [t_shape]. do 5 f_equal.
Qed.

Lemma reduction_b_rejects (b : dim) (h w c : Z) :
  h < 3 \/ w < 3 ->
  rejects reduction_b [b; Some h; Some w; Some c] negative_dimension.
Proof.
  intros H input g Hx. unfold reduction_b, bind.
  run_same.
  rewrite (conv2d_bn_small 384 3 2 (Some relu) false None b h w 256 H y _ Hy).
  reflexivity.
Qed.

(** A residual block of a known variant, with an activation, returns the
    shape it was given. *)
Lemma residual_block_maps (block_type : string) (scale : Q) (block_idx : Z)
      (fn : activation) (b h w : dim) (c : Z) :
  spec_branches block_type <> None ->
  maps_to (fun x => inception_resnet_block x scale block_type block_idx (Some fn))
          [b; h; w; Some c] [b; h; w; Some c].
Proof.
  intros Hknown x g Hx.
  assert (Htable : exists chain rest,
             spec_branches block_type = Some (chain :: rest)).
  { unfold spec_branches in *.
    destruct (String.eqb block_type "block35"); [eexists; eexists; reflexivity|].
    destruct (String.eqb block_type "block17"); [eexists; eexists; reflexivity|].
    destruct (String.eqb block_type "block8"); [eexists; eexists; reflexivity|].
    congruence. }
  destruct Htable as (chain & rest & Htable).
  destruct (residual_block_same block_type chain rest x scale block_idx fn g
              b h w c Htable Hx) as (out & new & _ & _ & _ & E & Hout & _).
  exists out, new. split; assumption.
Qed.

Lemma for_each_maps (body : Z -> tensor -> M tensor) (s : shape) (l : list Z) :
  (forall i, maps_to (body i) s s) -> maps_to (for_each l body) s s.
Proof.
  intros Hbody. induction l as [|i l IH]; [apply maps_to_ret|].
  cbn [for_each]. exact (maps_to_bind _ _ _ _ _ (Hbody i) IH).
Qed.

Lemma stage_maps (block_type : string) (scale : Q) (l : list Z)
      (b h w : dim) (c : Z) :
  spec_branches block_type <> None ->
  maps_to (for_each l (fun block_idx x =>
                         inception_resnet_block x scale block_type block_idx
                                                (Some relu)))
          [b; h; w; Some c] [b; h; w; Some c].
Proof.
  intros Hknown. apply for_each_maps. intros i.
  apply residual_block_maps. assumption.
Qed.

Lemma features_maps (b : dim) (h w c : Z) :
  75 <= h -> 75 <= w ->
  maps_to inception_resnet_v2_features [b; Some h; Some w; Some c]
          [b; Some (features_extent h); Some (features_extent w); Some 1536].
Proof.
  intros Hh Hw. unfold inception_resnet_v2_features.
  eapply maps_to_bind; [apply stem_maps; lia|].
  eapply maps_to_bind; [apply inception_a_maps|].
  eapply maps_to_bind; [apply stage_maps; discriminate|].
  eapply maps_to_bind; [apply reduction_a_maps; zdiv|].
  eapply maps_to_bind; [apply stage_maps; discriminate|].
  eapply maps_to_bind; [apply reduction_b_maps; zdiv|].
  eapply maps_to_bind; [apply stage_maps; discriminate|].
  eapply maps_to_bind; [apply conv2d_bn_keeps|].
  apply maps_to_ret.
Qed.

Lemma features_rejects (b : dim) (h w c : Z) :
  h < 75 \/ w < 75 ->
  rejects inception_resnet_v2_features [b; Some h; Some w; Some c]
          negative_dimension.
Proof.
  intros H. unfold inception_resnet_v2_features.
  eapply (rejects_through _ _ _ _ _ 27 h w);
    [apply stem_maps|apply stem_rejects|intros ? ?].
  eapply rejects_later; [apply inception_a_maps|].
  eapply rejects_later; [apply stage_maps; discriminate|].
  eapply (rejects_through _ _ _ _ _ 3 (stem_extent h) (stem_extent w));
    [apply reduction_a_maps|apply reduction_a_rejects|intros ? ?].
  eapply rejects_later; [apply stage_maps; discriminate|].
  eapply (rejects_through _ _ _ _ _ 3 (halved (stem_extent h))
                          (halved (stem_extent w)));
    [apply reduction_b_maps|apply reduction_b_rejects|intros ? ?].
  exfalso. zdiv.
Qed.

Lemma stem_extent_closed (n : Z) : stem_extent n = (n - 19) / 8.
Proof. zdiv. Qed.

Lemma features_extent_closed (n : Z) : features_extent n = (n - 43) / 32.
Proof. zdiv. Qed.

Lemma halved_closed (n : Z) : halved n = (n - 1) / 2.
Proof. reflexivity. Qed.

Lemma maps_to_run (f : tensor -> M tensor) (s s' : shape) (x : tensor)
      (st : backend) :
  maps_to f s s' -> image_data_format st = channels_last -> t_shape x = s ->
  exists out st',
    f x st = Ok (out, st')
    /\ t_shape out = s'
    /\ image_data_format st' = channels_last
    /\ exists new, graph st' = new ++ graph st.
Proof.
  intros Hf Hdf Hx. destruct st as [df g]. cbn in Hdf. subst df.
  destruct (Hf x g Hx) as (y & new & E & Hy).
  exists y, (mkBackend channels_last (new ++ g)).
  repeat split; try assumption. exists new. reflexivity.
Qed.

Lemma rejects_run (f : tensor -> M tensor) (s : shape) (e : exn) (x : tensor)
      (st : backend) :
  rejects f s e -> image_data_format st = channels_last -> t_shape x = s ->
  f x st = Raise e.
Proof.
  intros Hf Hdf Hx. destruct st as [df g]. cbn in Hdf. subst df.
  apply Hf. assumption.
Qed.

(** X1: on a channels-last input of height [h] and width [w] the stem
    returns a map of extent (h-19)/8 by (w-19)/8 with 192 channels and only
    adds nodes to the graph, provided both sides are at least 27; if one of
    them is smaller a valid window does not fit and the stem raises. *)
Theorem stem_any_size (input : tensor) (st : backend) (b : dim) (h w c : Z) :
  image_data_format st = channels_last ->
  t_shape input = [b; Some h; Some w; Some c] ->
  (27 <= h /\ 27 <= w ->
   exists out st',
     inception_stem input st = Ok (out, st')
     /\ t_shape out = [b; Some ((h - 19) / 8); Some ((w - 19) / 8); Some 192]
     /\ image_data_format st' = channels_last
     /\ exists new, graph st' = new ++ graph st)
  /\ (h < 27 \/ w < 27 -> inception_stem input st = Raise negative_dimension).
Proof.
  intros Hdf Hx. split.
  - intros [Hh Hw]. rewrite <- !stem_extent_closed.
    exact (maps_to_run _ _ _ input st (stem_maps b h w c Hh Hw) Hdf Hx).
  - intros H. exact (rejects_run _ _ _ input st (stem_rejects b h w c H) Hdf Hx).
Qed.

Lemma stem_any_size_witness :
  inception_stem (mkTensor 0 [None; Some 26; Some 299; Some 3])
                 (mkBackend channels_last [])
  = Raise negative_dimension.
Proof.
  apply (stem_any_size (mkTensor 0 [None; Some 26; Some 299; Some 3])
           (mkBackend channels_last []) None 26 299 3);
    [reflexivity|reflexivity|left; lia].
Defined.

(** X2: on every channels-last feature map with a defined channel count,
    whatever its batch and extent (known or not), Inception-A returns a map
    of the same batch and extent with 96+64+96+64 = 320 channels. *)
Theorem inception_a_shape (input : tensor) (st : backend) (b h w : dim) (c : Z) :
  image_data_format st = channels_last ->
  t_shape input = [b; h; w; Some c] ->
  exists out st',
    inception_a input st = Ok (out, st')
    /\ t_shape out = [b; h; w; Some (96 + 64 + 96 + 64)]
    /\ image_data_format st' = channels_last
    /\ exists new, graph st' = new ++ graph st.
Proof.
  intros Hdf Hx.
  exact (maps_to_run _ _ _ input st (inception_a_maps b h w c) Hdf Hx).
Qed.

Lemma inception_a_shape_witness :
  exists out st',
    inception_a (mkTensor 0 [None; None; None; Some 192])
                (mkBackend channels_last [])
    = Ok (out, st')
    /\ t_shape out = [None; None; None; Some (96 + 64 + 96 + 64)]
    /\ image_data_format st' = channels_last
    /\ exists new, graph st' = new ++ [].
Proof.
  apply (inception_a_shape (mkTensor 0 [None; None; None; Some 192])
           (mkBackend channels_last []) None None None 192); reflexivity.
Defined.

(** X3: on a channels-last map of height and width at least 3, Reduction-A
    returns a map of extent (h-1)/2 by (w-1)/2 whose channels are those of
    the input plus 384+384; on a smaller map it raises. *)
Theorem reduction_a_shape (input : tensor) (st : backend) (b : dim)
        (h w c : Z) :
  image_data_format st = channels_last ->
  t_shape input = [b; Some h; Some w; Some c] ->
  (3 <= h /\ 3 <= w ->
   exists out st',
     reduction_a input st = Ok (out, st')
     /\ t_shape out
        = [b; Some ((h - 1) / 2); Some ((w - 1) / 2); Some (384 + 384 + c)]
     /\ image_data_format st' = channels_last
     /\ exists new, graph st' = new ++ graph st)
  /\ (h < 3 \/ w < 3 -> reduction_a input st = Raise negative_dimension).
Proof.
  intros Hdf Hx. split.
  - intros [Hh Hw].
    exact (maps_to_run _ _ _ input st (reduction_a_maps b h w c Hh Hw) Hdf Hx).
  - intros H.
    exact (rejects_run _ _ _ input st (reduction_a_rejects b h w c H) Hdf Hx).
Qed.

Lemma reduction_a_shape_witness :
  exists out st',
    reduction_a block35_input block35_backend = Ok (out, st')
    /\ t_shape out
       = [None; Some ((35 - 1) / 2); Some ((35 - 1) / 2); Some (384 + 384 + 320)]
    /\ image_data_format st' = channels_last
    /\ exists new, graph st' = new ++ graph block35_backend.
Proof.
  apply (reduction_a_shape block35_input block35_backend None 35 35 320);
    [reflexivity|reflexivity|split; lia].
Defined.

(** X4: on a channels-last map of height and width at least 3, Reduction-B
    returns a map of extent (h-1)/2 by (w-1)/2 whose channels are those of
    the input plus 384+288+320; on a smaller map it raises. *)
Theorem reduction_b_shape (input : tensor) (st : backend) (b : dim)
        (h w c : Z) :
  image_data_format st = channels_last ->
  t_shape input = [b; Some h; Some w; Some c] ->
  (3 <= h /\ 3 <= w ->
   exists out st',
     reduction_b input st = Ok (out, st')
     /\ t_shape out
        = [b; Some ((h - 1) / 2); Some ((w - 1) / 2);
           Some (384 + 288 + 320 + c)]
     /\ image_data_format st' = channels_last
     /\ exists new, graph st' = new ++ graph st)
  /\ (h < 3 \/ w < 3 -> reduction_b input st = Raise negative_dimension).
Proof.
  intros Hdf Hx. split.
  - intros [Hh Hw].
    exact (maps_to_run _ _ _ input st (reduction_b_maps b h w c Hh Hw) Hdf Hx).
  - intros H.
    exact (rejects_run _ _ _ input st (reduction_b_rejects b h w c H) Hdf Hx).
Qed.

Lemma reduction_b_shape_witness :
  reduction_b (mkTensor 0 [None; Some 2; Some 17; Some 1088])
              (mkBackend channels_last [])
  = Raise negative_dimension.
Proof.
  apply (reduction_b_shape (mkTensor 0 [None; Some 2; Some 17; Some 1088])
           (mkBackend channels_last []) None 2 17 1088);
    [reflexivity|reflexivity|left; lia].
Defined.

(** X5: with a non-null activation, a residual block of any of the three
    variants returns a tensor of exactly the shape of its input, for every
    scale and index; hence a stage of any number of such blocks, as the loops
    of [inception_resnet_v2] stack them, keeps that shape too. *)
Theorem residual_blocks_keep_shape (input : tensor) (st : backend)
        (b h w : dim) (c : Z) (block_type : string) (scale : Q)
        (block_idx : Z) (fn : activation) (indices : list Z) :
  image_data_format st = channels_last ->
  t_shape input = [b; h; w; Some c] ->
  In block_type ["block35"; "block17"; "block8"] ->
  (exists out st',
      inception_resnet_block input scale block_type block_idx (Some fn) st
      = Ok (out, st')
      /\ t_shape out = t_shape input
      /\ image_data_format st' = channels_last
      /\ exists new, graph st' = new ++ graph st)
  /\ (exists out st',
        for_each indices
                 (fun block_idx x =>
                    inception_resnet_block x scale block_type block_idx
                                           (Some relu))
                 input st
        = Ok (out, st')
        /\ t_shape out = t_shape input
        /\ image_data_format st' = channels_last
        /\ exists new, graph st' = new ++ graph st).
Proof.
  intros Hdf Hx Hin.
  assert (Hknown : spec_branches block_type <> None).
  { cbn [In] in Hin. destruct Hin as [<-|[<-|[<-|[]]]]; discriminate. }
  rewrite Hx. split.
  - exact (maps_to_run _ _ _ input st
             (residual_block_maps block_type scale block_idx fn b h w c Hknown)
             Hdf Hx).
  - exact (maps_to_run _ _ _ input st
             (stage_maps block_type scale indices b h w c Hknown) Hdf Hx).
Qed.

Lemma residual_blocks_keep_shape_witness :
  exists out st',
    for_each [1; 2; 3]
             (fun block_idx x =>
                inception_resnet_block x 0.17 "block35" block_idx (Some relu))
             block35_input block35_backend
    = Ok (out, st')
    /\ t_shape out = t_shape block35_input
    /\ image_data_format st' = channels_last
    /\ exists new, graph st' = new ++ graph block35_backend.
Proof.
  apply (residual_blocks_keep_shape block35_input block35_backend
           None (Some 35) (Some 35) 320 "block35" 0.17 1 relu [1; 2; 3]);
    [reflexivity|reflexivity|left; reflexivity].
Defined.

(** X6: on a channels-last input of height [h] and width [w] the feature
    extractor of [inception_resnet_v2] builds exactly when both sides are at
    least 75; it then returns a map of extent (h-43)/32 by (w-43)/32 with
    1536 channels, and otherwise raises because a valid window does not
    fit. *)
Theorem features_any_size (inputs : tensor) (st : backend) (b : dim)
        (h w c : Z) :
  image_data_format st = channels_last ->
  t_shape inputs = [b; Some h; Some w; Some c] ->
  (75 <= h /\ 75 <= w ->
   exists out st',
     inception_resnet_v2_features inputs st = Ok (out, st')
     /\ t_shape out = [b; Some ((h - 43) / 32); Some ((w - 43) / 32); Some 1536]
     /\ image_data_format st' = channels_last
     /\ exists new, graph st' = new ++ graph st)
  /\ (h < 75 \/ w < 75 ->
      inception_resnet_v2_features inputs st = Raise negative_dimension).
Proof.
  intros Hdf Hx. split.
  - intros [Hh Hw]. rewrite <- !features_extent_closed.
    exact (maps_to_run _ _ _ inputs st (features_maps b h w c Hh Hw) Hdf Hx).
  - intros H.
    exact (rejects_run _ _ _ inputs st (features_rejects b h w c H) Hdf Hx).
Qed.

Lemma features_any_size_witness :
  exists out st',
    inception_resnet_v2_features
      (mkTensor 0 [None; Some 139; Some 299; Some 3])
      (mkBackend channels_last []) = Ok (out, st')
    /\ t_shape out
       = [None; Some ((139 - 43) / 32); Some ((299 - 43) / 32); Some 1536]
    /\ image_data_format st' = channels_last
    /\ exists new, graph st' = new ++ [].
Proof.
  apply (features_any_size (mkTensor 0 [None; Some 139; Some 299; Some 3])
           (mkBackend channels_last []) None 139 299 3);
    [reflexivity|reflexivity|split; lia].
Defined.


(** ** What every builder leaves alone, and the names it gives *)

Lemma names_of_app (a b : list node) :
  names_of (a ++ b) = names_of a ++ names_of b.
Proof.
  unfold names_of. rewrite map_app.
  induction (map n_layer a) as [|l ls IH]; [reflexivity|].
  cbn [app pick]. destruct (layer_name l); rewrite IH; reflexivity.
Qed.

Lemma adds_ret {A} (a : A) : adds (ret a) [].
Proof.
  intros st a' st' E. injection E as <- <-.
  split; [reflexivity|]. exists []. split; reflexivity.
Qed.

Lemma adds_raise {A} (e : exn) (names : list string) :
  adds (@raise A e) names.
Proof. intros st a st' E. discriminate E. Qed.

Lemma adds_lift {A} (r : result A) : adds (lift r) [].
Proof.
  intros st a st' E. unfold lift in E. destruct r; [|discriminate E].
  injection E as <- <-. split; [reflexivity|]. exists []. split; reflexivity.
Qed.

Lemma adds_bind {A B} (m : M A) (k : A -> M B) (n1 n2 : list string) :
  adds m n1 -> (forall a, adds (k a) n2) -> adds (bind m k) (n2 ++ n1).
Proof.
  intros Hm Hk st b st' E. unfold bind in E.
  destruct (m st) as [[a st1]|e] eqn:Em; [|discriminate E].
  destruct (Hm st a st1 Em) as (D1 & new1 & G1 & N1).
  destruct (Hk a st1 b st' E) as (D2 & new2 & G2 & N2).
  split; [congruence|]. exists (new2 ++ new1).
  split; [rewrite G2, G1, app_assoc; reflexivity|].
  rewrite names_of_app, N1, N2. reflexivity.
Qed.

Lemma adds_eq {A} (m : M A) (n1 n2 : list string) :
  adds m n1 -> n1 = n2 -> adds m n2.
Proof. intros H <-. exact H. Qed.

Lemma adds_call (l : layer) (inputs : list tensor) :
  adds (call l inputs)
       (match layer_name l with Some n => [n] | None => [] end).
Proof.
  intros st a st' E. unfold call in E.
  destruct (compute_output_shape _ _ _) as [s|e]; [|discriminate E].
  injection E as <- <-. split; [reflexivity|].
  eexists (cons _ nil). split; [reflexivity|].
  unfold names_of. cbn [map pick n_layer]. destruct (layer_name l); reflexivity.
Qed.

Lemma adds_Input (s : shape) : adds (Input s) [].
Proof.
  intros st a st' E. unfold Input in E. injection E as <- <-.
  split; [reflexivity|]. eexists (cons _ nil). split; reflexivity.
Qed.

Lemma adds_conv2d_bn (x : tensor) (filters : Z) (k : ksize) (s : Z)
      (p : padding) (act : option activation) (use_bias : bool)
      (name : option string) :
  adds (conv2d_bn x filters k s p act use_bias name)
       (conv2d_bn_names act use_bias name).
Proof.
  intros st a st' E. rewrite conv2d_bn_nodes in E.
  destruct (compute_output_shape _ _ _) as [sh|e]; [|discriminate E].
  cbv zeta in E. injection E as <- <-. split; [reflexivity|].
  cbn [graph].
  match goal with
  | |- exists new, ?ac ++ ?bn ++ ?conv :: _ = _ /\ _ =>
      exists (ac ++ bn ++ [conv])
  end.
  split; [rewrite <- !app_assoc; reflexivity|].
  unfold names_of, conv2d_bn_names.
  destruct name as [n|], act as [fn|], use_bias; reflexivity.
Qed.

Ltac adds_step :=
  lazymatch goal with
  | |- adds (bind _ _) _ => eapply adds_bind; [|intros ?]
  | |- adds (conv2d_bn _ _ _ _ _ _ _ _) _ => apply adds_conv2d_bn
  | |- adds (call _ _) _ => apply adds_call
  | |- adds (ret _) _ => apply adds_ret
  | |- adds (raise _) _ => apply adds_raise
  | |- adds (lift _) _ => apply adds_lift
  | |- adds (Input _) _ => apply adds_Input
  | |- adds (shape_index _ _) _ => unfold shape_index
  | |- adds (match ?o with _ => _ end) _ => destruct o
  end.

Ltac adds_chain := cbv zeta; repeat adds_step.

Lemma adds_stem (input : tensor) : adds (inception_stem input) [].
Proof.
  eapply adds_eq; [unfold inception_stem; adds_chain|reflexivity].
Qed.

Lemma adds_inception_a (input : tensor) :
  adds (inception_a input) ["mixed_5b"].
Proof.
  eapply adds_eq; [unfold inception_a; adds_chain|reflexivity].
Qed.

Lemma adds_reduction_a (input : tensor) :
  adds (reduction_a input) ["mixed_6a"].
Proof.
  eapply adds_eq; [unfold reduction_a; adds_chain|reflexivity].
Qed.

Lemma adds_reduction_b (input : tensor) :
  adds (reduction_b input) ["mixed_7a"].
Proof.
  eapply adds_eq; [unfold reduction_b; adds_chain|reflexivity].
Qed.

Lemma adds_branches (input : tensor) (block_type : string) :
  adds (inception_resnet_branches input block_type) [].
Proof.
  unfold inception_resnet_branches.
  destruct (String.eqb block_type "block35");
    [eapply adds_eq; [adds_chain|reflexivity]|].
  destruct (String.eqb block_type "block17");
    [eapply adds_eq; [adds_chain|reflexivity]|].
  destruct (String.eqb block_type "block8");
    [eapply adds_eq; [adds_chain|reflexivity]|].
  apply adds_raise.
Qed.

Lemma adds_block (input : tensor) (scale : Q) (block_type : string)
      (block_idx : Z) (act : option activation) :
  adds (inception_resnet_block input scale block_type block_idx act)
       (block_names block_type block_idx).
Proof.
  destruct act as [fn|].
  - eapply adds_eq.
    + unfold inception_resnet_block.
      eapply adds_bind; [apply adds_branches|intros ?]. adds_chain.
    + reflexivity.
  - intros st a st' E. exfalso.
    assert (H : exists e,
               inception_resnet_block input scale block_type block_idx None st
               = Raise e).
    { unfold inception_resnet_block.
      do 6 (apply bind_never_returns; intros ? ?). eexists. reflexivity. }
    destruct H as (e & H). congruence.
Qed.

Lemma adds_for_each {A} (body : Z -> A -> M A) (names : Z -> list string)
      (l : list Z) :
  (forall i x, adds (body i x) (names i)) ->
  forall x, adds (for_each l body x) (flat_map names (rev l)).
Proof.
  intros Hbody. induction l as [|i l IH]; intros x; [apply adds_ret|].
  cbn [for_each rev]. rewrite flat_map_app. cbn [flat_map].
  rewrite app_nil_r. apply adds_bind; [apply Hbody|apply IH].
Qed.

Lemma adds_stage (block_type : string) (scale : Q) (l : list Z) (x : tensor) :
  adds (for_each l (fun block_idx x =>
                      inception_resnet_block x scale block_type block_idx
                                             (Some relu)) x)
       (flat_map (block_names block_type) (rev l)).
Proof. apply adds_for_each. intros i y. apply adds_block. Qed.

Lemma adds_features (inputs : tensor) :
  adds (inception_resnet_v2_features inputs) feature_names.
Proof.
  eapply adds_eq.
  - unfold inception_resnet_v2_features.
    eapply adds_bind; [apply adds_stem|intros ?].
    eapply adds_bind; [apply adds_inception_a|intros ?].
    eapply adds_bind; [apply adds_stage|intros ?].
    eapply adds_bind; [apply adds_reduction_a|intros ?].
    eapply adds_bind; [apply adds_stage|intros ?].
    eapply adds_bind; [apply adds_reduction_b|intros ?].
    eapply adds_bind; [apply adds_stage|intros ?].
    adds_chain.
  - vm_compute. reflexivity.
Qed.

Lemma adds_top (include_top pooling : pyval) (classes : Z) (x : tensor) :
  adds (inception_resnet_v2_top include_top pooling classes x)
       (top_names include_top).
Proof.
  unfold inception_resnet_v2_top, top_names.
  destruct (truthy include_top);
    [eapply adds_eq; [adds_chain|reflexivity]|].
  destruct (py_eq_str pooling "avg");
    [eapply adds_eq; [adds_chain|reflexivity]|].
  destruct (py_eq_str pooling "max");
    [eapply adds_eq; [adds_chain|reflexivity]|].
  apply adds_ret.
Qed.

Lemma adds_Model (inputs outputs : tensor) (name : string) :
  adds (Model inputs outputs name) [].
Proof.
  intros st a st' E. unfold Model in E. injection E as <- <-.
  split; [reflexivity|]. exists []. split; reflexivity.
Qed.

Lemma adds_untrained helper (include_top weights : pyval)
      (input_shape : option shape) (pooling : pyval) (classes : Z) :
  adds (inception_resnet_v2_untrained helper include_top weights input_shape
                                      pooling classes)
       (top_names include_top ++ feature_names).
Proof.
  eapply adds_eq.
  - unfold inception_resnet_v2_untrained.
    eapply adds_bind; [apply adds_lift|intros ?].
    eapply adds_bind; [apply adds_Input|intros ?].
    eapply adds_bind; [apply adds_features|intros ?].
    eapply adds_bind; [apply adds_top|intros ?].
    apply adds_Model.
  - rewrite !app_nil_r. reflexivity.
Qed.

Lemma adds_inception_resnet_v2 helper load
      (include_top weights input_tensor : pyval)
      (input_shape : option shape) (pooling : pyval) (classes : Z) :
  adds (inception_resnet_v2 helper load include_top weights input_tensor
                            input_shape pooling classes)
       (top_names include_top ++ feature_names).
Proof.
  eapply adds_eq.
  - unfold inception_resnet_v2.
    eapply adds_bind; [apply adds_untrained|intros ?].
    eapply adds_bind; [|intros ?; apply adds_ret].
    unfold inception_resnet_v2_weights.
    destruct (py_eq_str weights "imagenet"); [apply adds_lift|apply adds_ret].
  - reflexivity.
Qed.

(** ** Channels-first backends *)

Lemma conv2d_bn_same_cf (x : tensor) (filters : Z) (k : ksize)
      (act : option activation) (use_bias : bool) (name : option string)
      (g : list node) (b h w : dim) (c : Z) :
  t_shape x = [b; Some c; h; w] ->
  exists y new,
    conv2d_bn x filters k 1 same act use_bias name (mkBackend channels_first g)
    = Ok (y, mkBackend channels_first (new ++ g))
    /\ t_shape y = [b; Some filters; h; w].
Proof.
  intros Hx. rewrite conv2d_bn_nodes. cbn [image_data_format graph].
  cbn [compute_output_shape]. rewrite Hx. unfold window_shape.
  destruct (normalize_tuple k) as [kh kw]. rewrite !conv_output_length_same_1.
  cbn [conv_channels]. cbv zeta.
  match goal with
  | |- context [Ok (?y, mkBackend _ (?ac ++ ?bn ++ ?conv :: g))] =>
      exists y, (ac ++ bn ++ [conv])
  end.
  split; [rewrite <- !app_assoc; reflexivity|reflexivity].
Qed.

Lemma conv2d_bn_cf_cases (x : tensor) (filters : Z) (k : ksize) (s : Z)
      (p : padding) (act : option activation) (use_bias : bool)
      (name : option string) (g : list node) :
  (exists b c h w, t_shape x = [b; Some c; h; w])
  \/ exists e,
      conv2d_bn x filters k s p act use_bias name (mkBackend channels_first g)
      = Raise e.
Proof.
  destruct (t_shape x) as [|b [|[c|] [|h [|w [|? ?]]]]] eqn:Hx;
    try (left; do 4 eexists; reflexivity);
    right; rewrite conv2d_bn_nodes; cbn [image_data_format graph];
    cbn [compute_output_shape]; rewrite Hx; unfold window_shape;
    destruct (normalize_tuple k) as [kh kw];
    try (eexists; reflexivity).
  destruct (conv_output_length h kh p s), (conv_output_length w kw p s);
    eexists; reflexivity.
Qed.

Ltac run_cf :=
  match goal with
  | H : t_shape ?x = _
    |- context [conv2d_bn ?x ?f ?k 1 same ?a ?u ?n (mkBackend channels_first ?g)] =>
      let y := fresh "y" in
      let new := fresh "new" in
      let E := fresh "E" in
      let Hy := fresh "Hy" in
      destruct (conv2d_bn_same_cf x f k a u n g _ _ _ _ H) as (y & new & E & Hy);
      rewrite E; clear E; cbv beta iota
  end.

Lemma concat2_axis1_mismatch (b h w h' w' : dim) (x y : Z) :
  x <> y ->
  concat2 3 [b; Some x; h; w] [b; Some y; h'; w']
  = Raise (ValueError "incompatible shapes").
Proof.
  intros Hxy. cbn [concat2]. rewrite merge_dim_refl. cbn [merge_dim].
  apply Z.eqb_neq in Hxy. rewrite Hxy. reflexivity.
Qed.

(** Under channels-first Inception-A never returns: its branches differ on
    axis 1, and it joins them on axis 3. *)
Lemma inception_a_channels_first (input : tensor) (g : list node) :
  exists e, inception_a input (mkBackend channels_first g) = Raise e.
Proof.
  unfold inception_a.
  destruct (conv2d_bn_cf_cases input 96 (KInt 1) 1 same (Some relu) false None g)
    as [(b & c & h & w & Hx)|(e & E)];
    [|exists e; unfold bind; rewrite E; reflexivity].
  unfold bind. do 6 run_cf.
  unfold call at 1. cbn [image_data_format graph map compute_output_shape].
  rewrite Hx. unfold window_shape. cbn [normalize_tuple].
  rewrite !conv_output_length_same_1. cbv beta iota.
  match goal with
  | |- context [conv2d_bn ?t 64 _ _ _ _ _ _ _] =>
      assert (Hpool : t_shape t = [b; Some c; h; w]) by reflexivity;
      set (pooled := t) in *
  end.
  run_cf.
  unfold call. cbn [image_data_format graph map compute_output_shape].
  rewrite Hy, Hy1, Hy4, Hy5.
  change ((0 <=? 3) && (3 <? Z.of_nat (List.length [b; Some 96; h; w])))
    with true.
  change (Z.to_nat 3) with 3%nat. cbv iota. cbn [concat_all].
  rewrite concat2_axis1_mismatch by discriminate.
  eexists. reflexivity.
Qed.

(** ** The join of a residual block under channels-first *)

(** Under channels-first the branches of a known variant are built, each
    with the batch and extent of the input and its width on axis 1. *)
Lemma branches_channels_first (input : tensor) (g : list node) (b h w : dim)
      (c : Z) (block_type : string) (widths : list Z) (total : Z) :
  t_shape input = [b; Some c; h; w] ->
  In (block_type, widths, total)
     [ ("block35", [32; 32; 64], 128);
       ("block17", [192; 192], 384);
       ("block8", [192; 256], 448) ] ->
  exists branches new,
    inception_resnet_branches input block_type (mkBackend channels_first g)
    = Ok (branches, mkBackend channels_first (new ++ g))
    /\ map t_shape branches = map (fun f => [b; Some f; h; w]) widths.
Proof.
  intros Hx Hin. cbn [In] in Hin.
  destruct Hin as [E|[E|[E|[]]]]; injection E as <- <- <-;
    unfold inception_resnet_branches; cbn [String.eqb Ascii.eqb Bool.eqb];
    unfold bind; repeat run_cf; unfold ret;
    rewrite ?app_assoc; eexists; eexists; (split; [reflexivity|]);
    cbn [map];
    repeat match goal with
           | H : t_shape _ = _ |- _ => rewrite ?H; clear H
           end;
    reflexivity.
Qed.

(** The join of the branches on axis 3 under channels-first: the two
    branches of block17 have the same width on axis 1, so they are joined
    along the image width; the branches of block35 and block8 differ on
    axis 1 and are refused. *)
Lemma join_channels_first (b h w : dim) (name : option string)
      (block_type : string) (widths : list Z) (total : Z) :
  In (block_type, widths, total)
     [ ("block35", [32; 32; 64], 128);
       ("block17", [192; 192], 384);
       ("block8", [192; 256], 448) ] ->
  compute_output_shape channels_first (Concatenate 3 name)
                       (map (fun f => [b; Some f; h; w]) widths)
  = if String.eqb block_type "block17"
    then Ok [b; Some 192; h; add_dim w w]
    else Raise (ValueError "incompatible shapes").
Proof.
  intros Hin. cbn [In] in Hin.
  destruct Hin as [E|[E|[E|[]]]]; injection E as <- <- <-;
    cbn [String.eqb Ascii.eqb Bool.eqb map compute_output_shape];
    change ((0 <=? 3) && (3 <? Z.of_nat (List.length [b; Some 32; h; w])))
      with true;
    change ((0 <=? 3) && (3 <? Z.of_nat (List.length [b; Some 192; h; w])))
      with true;
    change (Z.to_nat 3) with 3%nat; cbv iota; cbn [concat_all].
  - replace (concat2 3 [b; Some 32; h; w] [b; Some 32; h; w])
      with (Ok [b; Some 32; h; add_dim w w] : result shape)
      by (cbn [concat2]; rewrite !merge_dim_refl; reflexivity).
    rewrite concat2_axis1_mismatch by discriminate. reflexivity.
  - cbn [concat2]. rewrite !merge_dim_refl. reflexivity.
  - rewrite concat2_axis1_mismatch by discriminate. reflexivity.
Qed.

(** C5 (a defect of the code): on a channels-last feature map the claim
    holds: each variant builds only stride-1, same-padded layers, every
    branch has the batch and spatial extent of the block input, and the join
    on axis 3 has as many channels as the branches' widths add up to,
    32+32+64 = 128, 192+192 = 384, 192+256 = 448.  On a channels-first
    feature map the branches still have the extent of the input, their widths
    on axis 1, but the join is on axis 3 all the same: block17 is joined along
    the image width, to 192 channels and twice the width, and block35 and
    block8 are refused, their branches differing on axis 1.  On a
    channels-first 17 x 17 map of 1088 channels block17 raises. *)
Theorem residual_variants_concat (input : tensor) (scale : Q) (block_idx : Z)
        (fn : activation) (st : backend) (b h w : dim) (c : Z)
        (block_type : string) (widths : list Z) (total : Z) :
  In (block_type, widths, total)
     [ ("block35", [32; 32; 64], 128);
       ("block17", [192; 192], 384);
       ("block8", [192; 256], 448) ] ->
  (image_data_format st = channels_last ->
   t_shape input = [b; h; w; Some c] ->
   exists out st' new branches,
     inception_resnet_block input scale block_type block_idx (Some fn) st
     = Ok (out, st')
     /\ graph st' = new ++ graph st
     /\ forallb keeps_extent (map n_layer new) = true
     /\ map t_shape branches = map (fun f => [b; h; w; Some f]) widths
     /\ In (mkNode (Concatenate 3
                      (Some ((block_type +++ "_" +++ str_of_int block_idx)
                               +++ "_mixed")))
                   branches [b; h; w; Some total]) new
     /\ total = fold_right Z.add 0 widths)
  /\ (image_data_format st = channels_first ->
      t_shape input = [b; Some c; h; w] ->
      exists branches st1,
        inception_resnet_branches input block_type st = Ok (branches, st1)
        /\ image_data_format st1 = channels_first
        /\ map t_shape branches = map (fun f => [b; Some f; h; w]) widths
        /\ compute_output_shape channels_first
             (Concatenate 3
                (Some ((block_type +++ "_" +++ str_of_int block_idx)
                         +++ "_mixed")))
             (map t_shape branches)
           = (if String.eqb block_type "block17"
              then Ok [b; Some 192; h; add_dim w w]
              else Raise (ValueError "incompatible shapes"))
        /\ (block_type <> "block17" ->
            inception_resnet_block input scale block_type block_idx (Some fn)
                                   st
            = Raise (ValueError "incompatible shapes")))
  /\ inception_resnet_block block17_input_channels_first 0.1 "block17" 1
                            (Some relu) block17_backend_channels_first
     = Raise (ValueError "incompatible shapes").
Proof.
  intros Hin. split; [|split].
  - intros Hdf Hx.
    exact (residual_variants_concat_channels_last input scale block_idx fn st
             b h w c block_type widths total Hdf Hx Hin).
  - intros Hdf Hx. destruct st as [df g]. cbn in Hdf. subst df.
    destruct (branches_channels_first input g b h w c block_type widths total
                Hx Hin) as (branches & new & E & Hs).
    pose proof (join_channels_first b h w
                  (Some ((block_type +++ "_" +++ str_of_int block_idx)
                           +++ "_mixed"))
                  block_type widths total Hin) as J.
    rewrite <- Hs in J.
    exists branches, (mkBackend channels_first (new ++ g)).
    split; [exact E|]. split; [reflexivity|]. split; [exact Hs|].
    split; [exact J|].
    intros Hne. apply String.eqb_neq in Hne.
    unfold inception_resnet_block, bind. rewrite E. cbv zeta.
    unfold call at 1. cbn [image_data_format graph]. rewrite J, Hne.
    reflexivity.
  - vm_compute. reflexivity.
Qed.

Lemma residual_variants_concat_witness :
  (exists out st' new branches,
      inception_resnet_block block35_input 0.17 "block35" 1 (Some relu)
                             block35_backend
      = Ok (out, st')
      /\ graph st' = new ++ graph block35_backend
      /\ forallb keeps_extent (map n_layer new) = true
      /\ map t_shape branches
         = map (fun f => [None; Some 35; Some 35; Some f]) [32; 32; 64]
      /\ In (mkNode (Concatenate 3
                       (Some (("block35" +++ "_" +++ str_of_int 1)
                                +++ "_mixed")))
                    branches [None; Some 35; Some 35; Some 128]) new
      /\ 128 = fold_right Z.add 0 [32; 32; 64])
  /\ (exists branches st1,
        inception_resnet_branches block17_input_channels_first "block17"
                                  block17_backend_channels_first
        = Ok (branches, st1)
        /\ map t_shape branches
           = [[None; Some 192; Some 17; Some 17];
              [None; Some 192; Some 17; Some 17]]
        /\ compute_output_shape channels_first
             (Concatenate 3 (Some "block17_1_mixed")) (map t_shape branches)
           = Ok [None; Some 192; Some 17; Some 34]).
Proof.
  split.
  - apply (proj1 (residual_variants_concat block35_input 0.17 1 relu
                    block35_backend None (Some 35) (Some 35) 320
                    "block35" [32; 32; 64] 128
                    (or_introl eq_refl)));
      reflexivity.
  - destruct (proj1 (proj2 (residual_variants_concat
                              block17_input_channels_first 0.1 1 relu
                              block17_backend_channels_first
                              None (Some 17) (Some 17) 1088
                              "block17" [192; 192] 384
                              (or_intror (or_introl eq_refl))))
                eq_refl eq_refl)
      as (branches & st1 & E & _ & Hs & J & _).
    exists branches, st1. split; [exact E|]. split; [exact Hs|exact J].
Defined.


(** ** Names *)

Lemma append_assoc (a b c : string) : (a +++ b) +++ c = a +++ b +++ c.
Proof. induction a as [|x a IH]; cbn; [reflexivity|rewrite IH; reflexivity]. Qed.

Lemma append_inj_l (a b c : string) : a +++ b = a +++ c -> b = c.
Proof.
  induction a as [|x a IH]; cbn; [trivial|].
  intros H. injection H as H. apply IH, H.
Qed.

Lemma uint_no_underscore (d : Decimal.uint) :
  has_char "_" (NilEmpty.string_of_uint d) = false.
Proof. induction d; cbn; auto. Qed.

Lemma str_of_int_no_underscore (i : Z) : has_char "_" (str_of_int i) = false.
Proof.
  unfold str_of_int, NilZero.string_of_int, NilZero.string_of_uint.
  destruct (Z.to_int i) as [d|d]; destruct d; cbn;
    try reflexivity; apply uint_no_underscore.
Qed.

Lemma str_of_int_inj (i j : Z) : str_of_int i = str_of_int j -> i = j.
Proof.
  unfold str_of_int. intros H. apply DecimalZ.to_int_inj.
  assert (Hnil : forall z, Z.to_int z <> Decimal.Pos Decimal.Nil
                           /\ Z.to_int z <> Decimal.Neg Decimal.Nil).
  { intros [|p|p]; cbn; split; try discriminate;
      intros E; injection E as E;
      exact (DecimalPos.Unsigned.to_uint_nonnil p E). }
  destruct (Hnil i) as [Hi1 Hi2], (Hnil j) as [Hj1 Hj2].
  pose proof (NilZero.isi _ Hi1 Hi2) as Ei.
  pose proof (NilZero.isi _ Hj1 Hj2) as Ej.
  rewrite H in Ei. congruence.
Qed.

(** Two strings free of underscores, each followed by a suffix that is empty
    or opens with one: if the results agree, so do the parts. *)
Lemma append_split (s s' t t' : string) :
  has_char "_" s = false -> has_char "_" s' = false ->
  opens_with_underscore t -> opens_with_underscore t' ->
  s +++ t = s' +++ t' -> s = s' /\ t = t'.
Proof.
  revert s'. induction s as [|a s IH]; intros [|a' s'] Hs Hs' Ht Ht' E;
    cbn in E.
  - split; [reflexivity|assumption].
  - subst t. cbn in Ht. subst a'. cbn in Hs'. discriminate Hs'.
  - subst t'. cbn in Ht'. subst a. cbn in Hs. discriminate Hs.
  - injection E as -> E. cbn in Hs, Hs'.
    apply orb_false_iff in Hs, Hs'.
    destruct (IH s' (proj2 Hs) (proj2 Hs') Ht Ht' E) as [-> ->].
    split; reflexivity.
Qed.

Lemma append_nil_r (s : string) : s +++ EmptyString = s.
Proof. induction s as [|a s IH]; cbn; [reflexivity|rewrite IH; reflexivity]. Qed.

Lemma name_assoc (block_type d t : string) :
  (block_type +++ "_" +++ d) +++ t = (block_type +++ "_") +++ d +++ t.
Proof. rewrite !append_assoc. reflexivity. Qed.

Lemma block_name_forms (block_type : string) (block_idx : Z) (n : string) :
  In n (block_names block_type block_idx) ->
  exists t,
    n = (block_type +++ "_") +++ str_of_int block_idx +++ t
    /\ In t ["_ac"; EmptyString; "_conv"; "_mixed"].
Proof.
  unfold block_names. cbv zeta. cbn [In].
  intros [<-|[<-|[<-|[<-|[]]]]].
  - exists "_ac". split; [apply name_assoc|left; reflexivity].
  - exists EmptyString. split; [|right; left; reflexivity].
    rewrite <- name_assoc, append_nil_r. reflexivity.
  - exists "_conv". split; [apply name_assoc|right; right; left; reflexivity].
  - exists "_mixed".
    split; [apply name_assoc|right; right; right; left; reflexivity].
Qed.

Lemma suffix_opens (t : string) :
  In t ["_ac"; EmptyString; "_conv"; "_mixed"] -> opens_with_underscore t.
Proof. cbn [In]. intros [<-|[<-|[<-|[<-|[]]]]]; cbn; trivial. Qed.

(** A name of one block is a name of another only if the indices agree. *)
Lemma block_names_index (block_type : string) (i j : Z) (n : string) :
  In n (block_names block_type i) -> In n (block_names block_type j) -> i = j.
Proof.
  intros Hi Hj.
  destruct (block_name_forms _ _ _ Hi) as (t & -> & Ht).
  destruct (block_name_forms _ _ _ Hj) as (t' & E & Ht').
  apply append_inj_l in E.
  apply append_split in E;
    auto using str_of_int_no_underscore, suffix_opens.
  apply str_of_int_inj. apply E.
Qed.

Lemma block_names_type (block_type block_type' : string) (i j : Z)
      (n : string) :
  In block_type ["block35"; "block17"; "block8"] ->
  In block_type' ["block35"; "block17"; "block8"] ->
  In n (block_names block_type i) -> In n (block_names block_type' j) ->
  block_type = block_type'.
Proof.
  intros Hb Hb' Hi Hj.
  destruct (block_name_forms _ _ _ Hi) as (t & -> & _).
  destruct (block_name_forms _ _ _ Hj) as (t' & E & _).
  cbn [In] in Hb, Hb'.
  destruct Hb as [<-|[<-|[<-|[]]]], Hb' as [<-|[<-|[<-|[]]]];
    try reflexivity; cbn in E; discriminate E.
Qed.

Lemma block_names_nodup (block_type : string) (i : Z) :
  NoDup (block_names block_type i).
Proof.
  assert (H : forall t t',
             In t ["_ac"; EmptyString; "_conv"; "_mixed"] ->
             In t' ["_ac"; EmptyString; "_conv"; "_mixed"] ->
             (block_type +++ "_" +++ str_of_int i) +++ t
             = (block_type +++ "_" +++ str_of_int i) +++ t' -> t = t').
  { intros t t' _ _ E. apply append_inj_l in E. exact E. }
  unfold block_names. cbv zeta.
  set (N := block_type +++ "_" +++ str_of_int i) in *.
  rewrite <- (append_nil_r N) at 2.
  repeat constructor; cbn [In]; intros Hin;
    repeat (destruct Hin as [Hin|Hin];
            [apply H in Hin; [discriminate Hin|cbn; tauto..]|]);
    exact Hin.
Qed.

(** ** The model on inputs of any size *)

(** X7: on a channels-last backend, when the input-shape helper returns
    (h, w, c) the model is built exactly when h and w are at least 75. Its
    input then is (None, h, w, c); its output is (None, classes) with the
    head, (None, 1536) without it under pooling 'avg' or 'max', and the
    (None, (h-43)/32, (w-43)/32, 1536) feature map otherwise; it carries the
    name of the source and no weights.  Below 75 the construction raises. *)
Theorem model_any_size helper (include_top weights : pyval)
        (input_shape : option shape) (pooling : pyval) (classes : Z)
        (st : backend) (h w c : Z) :
  image_data_format st = channels_last ->
  helper input_shape 299 139 None include_top weights
  = Ok [Some h; Some w; Some c] ->
  (75 <= h /\ 75 <= w ->
   exists m st',
     inception_resnet_v2_untrained helper include_top weights input_shape
                                   pooling classes st
     = Ok (m, st')
     /\ t_shape (m_inputs m) = [None; Some h; Some w; Some c]
     /\ t_shape (m_outputs m)
        = (if truthy include_top then [None; Some classes]
           else if py_eq_str pooling "avg" || py_eq_str pooling "max"
                then [None; Some 1536]
                else [None; Some ((h - 43) / 32); Some ((w - 43) / 32);
                      Some 1536])
     /\ m_name m = "inception_resnet_v2"
     /\ m_weights m = None
     /\ m_graph m = graph st')
  /\ (h < 75 \/ w < 75 ->
      inception_resnet_v2_untrained helper include_top weights input_shape
                                    pooling classes st
      = Raise negative_dimension).
Proof.
  intros Hdf Hhelper. destruct st as [df g]. cbn in Hdf. subst df.
  unfold inception_resnet_v2_untrained, bind, lift. rewrite Hhelper.
  unfold Input. cbn [image_data_format graph].
  set (inputs := mkTensor (List.length g) [None; Some h; Some w; Some c]).
  set (g1 := _ :: g).
  split.
  - intros [Hh Hw].
    destruct (features_maps None h w c Hh Hw inputs g1 eq_refl)
      as (x & new & E & Hx).
    rewrite E. rewrite <- !features_extent_closed.
    rewrite (top_on_feature_map include_top pooling classes x (new ++ g1)
               None _ _ 1536 Hx).
    unfold Model.
    destruct (truthy include_top);
      [|destruct (py_eq_str pooling "avg");
        [|destruct (py_eq_str pooling "max")]];
      cbn [orb]; eexists; eexists; (split; [reflexivity|]);
      cbn [m_inputs m_outputs m_name m_weights m_graph graph t_shape inputs];
      repeat split; assumption.
  - intros H.
    rewrite (features_rejects None h w c H inputs g1 eq_refl). reflexivity.
Qed.

Lemma model_any_size_witness :
  exists m st',
    inception_resnet_v2_untrained ImagenetUtils._obtain_input_shape
      (PyBool false) PyNone (Some [Some 139; Some 200; Some 3]) PyNone 1000
      (mkBackend channels_last [])
    = Ok (m, st')
    /\ t_shape (m_outputs m)
       = [None; Some ((139 - 43) / 32); Some ((200 - 43) / 32); Some 1536].
Proof.
  destruct (model_any_size ImagenetUtils._obtain_input_shape (PyBool false)
              PyNone (Some [Some 139; Some 200; Some 3]) PyNone 1000
              (mkBackend channels_last []) 139 200 3)
    as [Hok _]; [reflexivity|reflexivity|].
  destruct Hok as (m & st' & E & _ & Hout & _); [split; lia|].
  exists m, st'. split; [exact E|exact Hout].
Defined.

(** ** Channels-first *)

(** X8: the script builds only on a channels-last backend.  Under
    channels-first, whatever the input and the arguments, Inception-A never
    returns (its branches have different sizes on axis 1, and it joins them on
    axis 3), and so neither do the feature extractor and
    [inception_resnet_v2]. *)
Theorem channels_first_never_builds helper load
        (include_top weights input_tensor : pyval)
        (input_shape : option shape) (pooling : pyval) (classes : Z)
        (x : tensor) (st : backend) :
  image_data_format st = channels_first ->
  (exists e, inception_a x st = Raise e)
  /\ (exists e, inception_resnet_v2_features x st = Raise e)
  /\ (exists e,
        inception_resnet_v2 helper load include_top weights input_tensor
                            input_shape pooling classes st
        = Raise e).
Proof.
  intros Hdf.
  assert (Ha : forall y s, image_data_format s = channels_first ->
                           exists e, inception_a y s = Raise e).
  { intros y [df g] H. cbn in H. subst df. apply inception_a_channels_first. }
  assert (Hf : forall y s, image_data_format s = channels_first ->
                           exists e, inception_resnet_v2_features y s = Raise e).
  { intros y s H. unfold inception_resnet_v2_features, bind.
    destruct (inception_stem y s) as [[z s1]|e] eqn:E; [|eauto].
    destruct (adds_stem y s z s1 E) as [D _]. rewrite H in D.
    destruct (Ha z s1 D) as (e & ->). eauto. }
  split; [apply Ha, Hdf|]. split; [apply Hf, Hdf|].
  unfold inception_resnet_v2, inception_resnet_v2_untrained, bind, lift.
  destruct (helper _ _ _ _ _ _) as [s|e]; [|eauto].
  unfold Input.
  match goal with
  | |- context [inception_resnet_v2_features ?y ?s1] =>
      destruct (Hf y s1 Hdf) as (e & ->)
  end.
  eauto.
Qed.

Lemma channels_first_never_builds_witness :
  exists e,
    inception_resnet_v2 ImagenetUtils._obtain_input_shape (fun m _ => Ok m)
      (PyBool true) PyNone PyNone None PyNone 1000
      (mkBackend channels_first [])
    = Raise e.
Proof.
  apply (channels_first_never_builds ImagenetUtils._obtain_input_shape
           (fun m _ => Ok m) (PyBool true) PyNone PyNone None PyNone 1000
           block35_input (mkBackend channels_first [])).
  reflexivity.
Defined.


(** ** Names of the layers *)

Lemma distinct_NoDup (l : list string) : distinct l = true -> NoDup l.
Proof.
  induction l as [|x l IH]; cbn [distinct]; intros H; [constructor|].
  apply andb_true_iff in H. destruct H as [Hx Hl].
  constructor; [|apply IH, Hl].
  intros Hin. apply negb_true_iff in Hx.
  assert (E : existsb (String.eqb x) l = true).
  { apply existsb_exists. exists x. split; [exact Hin|apply String.eqb_refl]. }
  congruence.
Qed.

Lemma model_names_distinct :
  distinct (["predictions"; "avg_pool"] ++ feature_names) = true.
Proof. vm_compute. reflexivity. Qed.

(** X9: the layers a residual block names are, newest first, its
    activation, its scaled sum, its projection and its join, named after
    block type and index; the four names differ, a name of the block with one
    index is never a name of the block with another, and blocks of different
    known types share no name. *)
Theorem residual_block_names (input : tensor) (scale : Q)
        (block_type block_type' : string) (i j : Z) (act : option activation)
        (st st' : backend) (out : tensor) (n : string) :
  (inception_resnet_block input scale block_type i act st = Ok (out, st') ->
   exists new,
     graph st' = new ++ graph st
     /\ names_of new
        = [ (block_type +++ "_" +++ str_of_int i) +++ "_ac";
            block_type +++ "_" +++ str_of_int i;
            (block_type +++ "_" +++ str_of_int i) +++ "_conv";
            (block_type +++ "_" +++ str_of_int i) +++ "_mixed" ])
  /\ NoDup (block_names block_type i)
  /\ (In n (block_names block_type i) -> In n (block_names block_type j) ->
      i = j)
  /\ (In block_type ["block35"; "block17"; "block8"] ->
      In block_type' ["block35"; "block17"; "block8"] ->
      In n (block_names block_type i) -> In n (block_names block_type' j) ->
      block_type = block_type' /\ i = j).
Proof.
  split; [|split; [|split]].
  - intros E. destruct (adds_block _ _ _ _ _ _ _ _ E) as (_ & new & G & N).
    exists new. split; assumption.
  - apply block_names_nodup.
  - apply block_names_index.
  - intros Hb Hb' Hi Hj.
    pose proof (block_names_type _ _ _ _ _ Hb Hb' Hi Hj) as <-.
    split; [reflexivity|]. exact (block_names_index _ _ _ _ Hi Hj).
Qed.

Lemma block17_returns :
  returns (inception_resnet_block block35_input 0.1 "block17" 7 (Some relu)
             block35_backend) = true.
Proof. vm_compute. reflexivity. Qed.

Lemma residual_block_names_witness :
  exists r new,
    inception_resnet_block block35_input 0.1 "block17" 7 (Some relu)
                           block35_backend = Ok r
    /\ graph (snd r) = new ++ graph block35_backend
    /\ names_of new
       = ["block17_7_ac"; "block17_7"; "block17_7_conv"; "block17_7_mixed"].
Proof.
  destruct (returns_inv _ block17_returns) as ([out st'] & E).
  destruct (proj1 (residual_block_names block35_input 0.1 "block17" "block17"
                     7 7 (Some relu) block35_backend st' out EmptyString) E)
    as (new & G & N).
  exists (out, st'), new. split; [exact E|]. split; [exact G|exact N].
Defined.

(** X10: whenever [inception_resnet_v2] returns, whatever its arguments, the
    input-shape helper, the loader and the backend, it has put in front of
    the graph layers named, newest first, as the head and the pipeline name
    them: 166 names for the feature extractor, and [predictions] and
    [avg_pool] before them with the head; no two of these names are equal. *)
Theorem model_layer_names helper load
        (include_top weights input_tensor : pyval)
        (input_shape : option shape) (pooling : pyval) (classes : Z)
        (st st' : backend) (m : model) :
  inception_resnet_v2 helper load include_top weights input_tensor input_shape
                      pooling classes st
  = Ok (m, st') ->
  exists new,
    graph st' = new ++ graph st
    /\ names_of new
       = (if truthy include_top then ["predictions"; "avg_pool"] else [])
           ++ flat_map stage_names (rev spec_pipeline)
    /\ NoDup (names_of new)
    /\ List.length (flat_map stage_names (rev spec_pipeline)) = 166%nat.
Proof.
  intros E.
  destruct (adds_inception_resnet_v2 _ _ _ _ _ _ _ _ _ _ _ E)
    as (_ & new & G & N).
  exists new. split; [exact G|]. split; [exact N|].
  split; [|vm_compute; reflexivity].
  rewrite N. unfold top_names.
  pose proof (distinct_NoDup _ model_names_distinct) as H.
  destruct (truthy include_top); [exact H|].
  cbn [app] in H |- *. inversion H as [|? ? _ H1]. inversion H1. assumption.
Qed.

Lemma default_build_returns :
  returns (inception_resnet_v2 ImagenetUtils._obtain_input_shape keep_model
             (PyBool true) PyNone PyNone None PyNone 1000
             (mkBackend channels_last [])) = true.
Proof. vm_compute. reflexivity. Qed.

Lemma model_layer_names_witness :
  exists m st' new,
    inception_resnet_v2 ImagenetUtils._obtain_input_shape keep_model
      (PyBool true) PyNone PyNone None PyNone 1000 (mkBackend channels_last [])
    = Ok (m, st')
    /\ graph st' = new ++ []
    /\ NoDup (names_of new).
Proof.
  destruct (returns_inv _ default_build_returns) as ([m st'] & E).
  destruct (model_layer_names ImagenetUtils._obtain_input_shape
              keep_model (PyBool true) PyNone PyNone None PyNone 1000
              (mkBackend channels_last []) st' m E)
    as (new & G & _ & D & _).
  exists m, st', new; split; [exact E|]; split; assumption.
Defined.

(** ** What every builder leaves alone *)

Lemma adds_grows {A} (m : M A) (names : list string) (st st' : backend)
      (a : A) :
  adds m names -> m st = Ok (a, st') ->
  image_data_format st' = image_data_format st
  /\ exists new, graph st' = new ++ graph st.
Proof.
  intros H E. destruct (H st a st' E) as (D & new & G & _).
  split; [exact D|]. exists new. exact G.
Qed.

(** X11: in every data format and for every argument, when a function of
    the script returns it has only put new nodes in front of the backend's
    graph and has left the image data format as it was: no existing layer is
    removed or rewritten. *)
Theorem builders_only_add_nodes (st st' : backend) :
  let grown :=
    image_data_format st' = image_data_format st
    /\ exists new, graph st' = new ++ graph st in
  (forall x filters k s p act use_bias name y,
      conv2d_bn x filters k s p act use_bias name st = Ok (y, st') -> grown)
  /\ (forall x y, inception_stem x st = Ok (y, st') -> grown)
  /\ (forall x y, inception_a x st = Ok (y, st') -> grown)
  /\ (forall x scale block_type block_idx act y,
        inception_resnet_block x scale block_type block_idx act st
        = Ok (y, st') -> grown)
  /\ (forall x y, reduction_a x st = Ok (y, st') -> grown)
  /\ (forall x y, reduction_b x st = Ok (y, st') -> grown)
  /\ (forall x y, inception_resnet_v2_features x st = Ok (y, st') -> grown)
  /\ (forall include_top pooling classes x y,
        inception_resnet_v2_top include_top pooling classes x st = Ok (y, st')
        -> grown)
  /\ (forall helper load include_top weights input_tensor input_shape pooling
             classes m,
        inception_resnet_v2 helper load include_top weights input_tensor
                            input_shape pooling classes st
        = Ok (m, st') -> grown).
Proof.
  cbv zeta.
  split; [intros; eapply adds_grows; [apply adds_conv2d_bn|eassumption]|].
  split; [intros; eapply adds_grows; [apply adds_stem|eassumption]|].
  split; [intros; eapply adds_grows; [apply adds_inception_a|eassumption]|].
  split; [intros; eapply adds_grows; [apply adds_block|eassumption]|].
  split; [intros; eapply adds_grows; [apply adds_reduction_a|eassumption]|].
  split; [intros; eapply adds_grows; [apply adds_reduction_b|eassumption]|].
  split; [intros; eapply adds_grows; [apply adds_features|eassumption]|].
  split; [intros; eapply adds_grows; [apply adds_top|eassumption]|].
  intros; eapply adds_grows; [apply adds_inception_resnet_v2|eassumption].
Qed.

Lemma builders_only_add_nodes_witness :
  exists y st',
    inception_stem (mkTensor 0 [None; Some 3; Some 299; Some 299])
                   (mkBackend channels_first []) = Ok (y, st')
    /\ image_data_format st' = channels_first
    /\ exists new, graph st' = new ++ [].
Proof.
  destruct (inception_stem (mkTensor 0 [None; Some 3; Some 299; Some 299])
                           (mkBackend channels_first []))
    as [[y st']|e] eqn:E; [|vm_compute in E; discriminate E].
  exists y, st'. split; [reflexivity|].
  exact (proj1 (proj2 (builders_only_add_nodes (mkBackend channels_first []) st'))
           _ y E).
Defined.

(** ** More on [preprocess_input] *)






